(** * Verification of the core of RemoteSignalMonitor-Mikrotik (src/app.py)

    Python [str] values are modelled as Rocq [string]s whose bytes are read
    as Latin-1 code points; the character classes below ([\s], [\d], [\w],
    line breaks) are those of Python's [re] and [str] on that range. *)

From Stdlib Require Import String Ascii List ZArith QArith Bool Lia DecimalString.
From stdpp Require Import base gmap strings.

Import ListNotations.

(* stdpp declares [String.append] [simpl never]; let it compute on constructors. *)
Arguments String.append s1 s2 : simpl nomatch.

(* ------------------------------------------------------------------ *)
(** ** Python string primitives *)

Module Py.

Local Open Scope string_scope.

Definition code (c : ascii) : nat := nat_of_ascii c.

(** [str.isspace] / regex [\s] on Latin-1. *)
Definition is_space (c : ascii) : bool :=
  let n := code c in
  ((9 <=? n) && (n <=? 13))%nat || ((28 <=? n) && (n <=? 32))%nat
  || (n =? 133)%nat || (n =? 160)%nat.

(** Line boundaries of [str.splitlines] on Latin-1 ([\r\n] handled apart). *)
Definition is_linebreak (c : ascii) : bool :=
  let n := code c in
  ((10 <=? n) && (n <=? 13))%nat || ((28 <=? n) && (n <=? 30))%nat
  || (n =? 133)%nat.

(** Regex [\d] (and [[0-9]]): on Latin-1 only the ASCII digits. *)
Definition is_digit (c : ascii) : bool :=
  let n := code c in ((48 <=? n) && (n <=? 57))%nat.

(** Regex [\w] on Latin-1: alphanumerics and underscore. *)
Definition is_word (c : ascii) : bool :=
  let n := code c in
  is_digit c || ((65 <=? n) && (n <=? 90))%nat || ((97 <=? n) && (n <=? 122))%nat
  || (n =? 95)%nat
  || (n =? 170)%nat || (n =? 178)%nat || (n =? 179)%nat || (n =? 181)%nat
  || (n =? 185)%nat || (n =? 186)%nat || ((188 <=? n) && (n <=? 190))%nat
  || ((192 <=? n) && (n <=? 214))%nat || ((216 <=? n) && (n <=? 246))%nat
  || ((248 <=? n) && (n <=? 255))%nat.

(** ASCII lower-casing; non-ASCII Latin-1 letters never lower-case to an
    ASCII letter, so comparing against ASCII patterns is unaffected. *)
Definition lower (c : ascii) : ascii :=
  let n := code c in
  if ((65 <=? n) && (n <=? 90))%nat then ascii_of_nat (n + 32) else c.

Definition ceq (a b : ascii) : bool := Ascii.eqb a b.

Definition dq : ascii := "034"%char.
Definition bsl : ascii := "092"%char.
Definition cr : ascii := "013"%char.
Definition lf : ascii := "010"%char.

Definition str1 (c : ascii) : string := String c EmptyString.

(** [s.startswith(p)] *)
Fixpoint startswith (p s : string) : bool :=
  match p, s with
  | EmptyString, _ => true
  | String a p', String b s' => ceq a b && startswith p' s'
  | String _ _, EmptyString => false
  end.

(** [s.lower().startswith(p)], or a case-insensitive literal match. *)
Fixpoint startswith_ci (p s : string) : bool :=
  match p, s with
  | EmptyString, _ => true
  | String a p', String b s' => ceq (lower a) (lower b) && startswith_ci p' s'
  | String _ _, EmptyString => false
  end.

Fixpoint endswith_rev (p s : list ascii) : bool :=
  match p, s with
  | [], _ => true
  | a :: p', b :: s' => ceq a b && endswith_rev p' s'
  | _ :: _, [] => false
  end.

(** [s.endswith(p)] *)
Definition endswith (p s : string) : bool :=
  endswith_rev (rev (list_ascii_of_string p)) (rev (list_ascii_of_string s)).

Fixpoint take_while (f : ascii -> bool) (s : string) : string :=
  match s with
  | String c s' => if f c then String c (take_while f s') else EmptyString
  | EmptyString => EmptyString
  end.

Fixpoint drop_while (f : ascii -> bool) (s : string) : string :=
  match s with
  | String c s' => if f c then drop_while f s' else s
  | EmptyString => EmptyString
  end.

Fixpoint drop (n : nat) (s : string) : string :=
  match n, s with
  | O, _ => s
  | S n', String _ s' => drop n' s'
  | S _, EmptyString => EmptyString
  end.

Fixpoint rstrip_list (f : ascii -> bool) (l : list ascii) : list ascii :=
  match l with
  | [] => []
  | c :: l' =>
      match rstrip_list f l' with
      | [] => if f c then [] else [c]
      | r => c :: r
      end
  end.

(** [s.rstrip()] *)
Definition rstrip (s : string) : string :=
  string_of_list_ascii (rstrip_list is_space (list_ascii_of_string s)).

(** [s.strip()] *)
Definition strip (s : string) : string :=
  string_of_list_ascii (rstrip_list is_space (list_ascii_of_string (drop_while is_space s))).

(** [s.strip(chars)] for a one-character set. *)
Definition strip_char (c : ascii) (s : string) : string :=
  let f := fun d => Ascii.eqb c d in
  string_of_list_ascii (rstrip_list f (list_ascii_of_string (drop_while f s))).

(** [s.replace(c, r)] for a one-character pattern [c]. *)
Fixpoint replace_char (c : ascii) (r s : string) : string :=
  match s with
  | EmptyString => EmptyString
  | String d s' => if ceq c d then r ++ replace_char c r s' else String d (replace_char c r s')
  end.

Fixpoint replace_go (fuel : nat) (pat rep s : string) : string :=
  match fuel with
  | O => s
  | S fuel' =>
      match s with
      | EmptyString => EmptyString
      | String c s' =>
          if startswith pat s
          then rep ++ replace_go fuel' pat rep (drop (String.length pat) s)
          else String c (replace_go fuel' pat rep s')
      end
  end.

(** [s.replace(pat, rep)] for a non-empty pattern: left to right,
    non-overlapping. *)
Definition replace (pat rep s : string) : string :=
  replace_go (S (String.length s)) pat rep s.

(** [s.split(":", 1)[1]]: the text after the first colon. *)
Fixpoint after_colon (s : string) : string :=
  match s with
  | EmptyString => EmptyString
  | String c s' => if ceq c ":"%char then s' else after_colon s'
  end.

Fixpoint splitlines_go (s cur : string) : list string :=
  match s with
  | EmptyString => if String.eqb cur EmptyString then [] else [cur]
  | String c rest =>
      if is_linebreak c then
        cur :: (if ceq c cr then
                  match rest with
                  | String d r' => if ceq d lf then splitlines_go r' EmptyString else splitlines_go rest EmptyString
                  | EmptyString => splitlines_go rest EmptyString
                  end
                else splitlines_go rest EmptyString)
      else splitlines_go rest (cur ++ str1 c)
  end.

(** [s.splitlines()] *)
Definition splitlines (s : string) : list string := splitlines_go s EmptyString.

(** Number of positions at which [p] occurs in [s]. *)
Fixpoint occurrences (p s : string) : nat :=
  match s with
  | EmptyString => if String.eqb p EmptyString then 1 else 0
  | String _ s' => (if startswith p s then 1 else 0) + occurrences p s'
  end.

Fixpoint digits_value_go (acc : Z) (s : string) : Z :=
  match s with
  | EmptyString => acc
  | String c s' => digits_value_go (10 * acc + (Z.of_nat (code c) - 48)) s'
  end.

(** Value of a string of decimal digits. *)
Definition digits_value (s : string) : Z := digits_value_go 0 s.

End Py.

(* ------------------------------------------------------------------ *)
(** ** Command wrapper: [_build_ros_at_chat_cmd] *)

Module Wrapper.

Import Py.
Local Open Scope string_scope.

(** The [clean] value computed from the AT command. *)
Definition clean_at_cmd (at_cmd : string) : string :=
  let clean := strip at_cmd in
  let clean := replace_char cr EmptyString clean in
  let clean := replace_char lf " " clean in
  let clean := replace_char bsl (str1 bsl ++ str1 bsl) clean in
  replace_char dq (str1 bsl ++ str1 dq) clean.

(** The f-string [/interface lte at-chat {interface} input=<dq>{clean}<dq>],
    where <dq> is a double quote. *)
Definition _build_ros_at_chat_cmd (interface at_cmd : string) : string :=
  let clean := clean_at_cmd at_cmd in
  "/interface lte at-chat " ++ interface ++ " input=" ++ str1 dq ++ clean ++ str1 dq.

(** Reader for a double-quoted argument, as the remote shell parses it:
    a backslash followed by a backslash or by a double quote stands for
    that character, an unescaped double quote ends the argument.  Other escape sequences are not modelled ([None]). *)
Fixpoint read_quoted (s : string) : option (string * string) :=
  match s with
  | EmptyString => None
  | String c s' =>
      if ceq c dq then Some (EmptyString, s')
      else if ceq c bsl then
        match s' with
        | String d s'' =>
            if ceq d bsl || ceq d dq then
              match read_quoted s'' with
              | Some (v, rest) => Some (String d v, rest)
              | None => None
              end
            else None
        | EmptyString => None
        end
      else
        match read_quoted s' with
        | Some (v, rest) => Some (String c v, rest)
        | None => None
        end
  end.

End Wrapper.

(* ------------------------------------------------------------------ *)
(** ** Python exceptions and results *)

Inductive py_exc := ValueError | OverflowError | TransportError.

Inductive result (A : Type) := Ok (a : A) | Raise (e : py_exc).
Arguments Ok {A} a.
Arguments Raise {A} e.

(* ------------------------------------------------------------------ *)
(** ** Temperature parser: [_parse_temp_output] *)

Module Temp.

Import Py.
Local Open Scope string_scope.

(** The returned string: a dash, or the f-string
    [Media {average:.1f}¬∞C]; the float formatting is kept symbolic in
    [TMedia]. *)
Inductive temp_text := TDash | TMedia (average : Q).

(** One attempt of the pattern [{label}:\s*([+-]?\d+)C] (IGNORECASE) at the head
    of [s], returning [int(group(1))]. *)
Definition temp_match_at (label s : string) : option Z :=
  if startswith_ci label s then
    match drop (String.length label) s with
    | String c rest =>
        if ceq c ":"%char then
          let r := drop_while is_space rest in
          let '(sgn, r') :=
            match r with
            | String d t => if ceq d "+"%char then (1%Z, t)
                            else if ceq d "-"%char then ((-1)%Z, t) else (1%Z, r)
            | EmptyString => (1%Z, r)
            end in
          let ds := take_while is_digit r' in
          if String.eqb ds EmptyString then None
          else match drop (String.length ds) r' with
               | String e _ => if ceq (lower e) "c"%char then Some (sgn * digits_value ds)%Z else None
               | EmptyString => None
               end
        else None
    | EmptyString => None
    end
  else None.

(** [re.search]: leftmost match. *)
Fixpoint temp_search (label s : string) : option Z :=
  match temp_match_at label s with
  | Some v => Some v
  | None => match s with
            | EmptyString => None
            | String _ s' => temp_search label s'
            end
  end.

Definition labels : list string := ["TSENS"; "PA"; "Skin Sensor"].

(** [int / int] true division: [OverflowError] when the correctly rounded
    quotient does not fit a double (|q| >= 2^1024 - 2^970); otherwise the
    quotient, kept exact. *)
Definition true_div (a b : Z) : result Q :=
  if (Z.abs a >=? Z.abs b * (2 ^ 1024 - 2 ^ 970))%Z then Raise OverflowError
  else Ok (Qmake a (Z.to_pos b)).

Definition _parse_temp_output (text : string) : result temp_text :=
  let temps := flat_map (fun label => match temp_search label text with
                                      | Some v => [v] | None => [] end) labels in
  match temps with
  | [] => Ok TDash
  | _ => match true_div (fold_left Z.add temps 0%Z) (Z.of_nat (length temps)) with
         | Ok average => Ok (TMedia average)
         | Raise e => Raise e
         end
  end.

End Temp.

(* ------------------------------------------------------------------ *)
(** ** Python [float()] on decimal literals *)

Module Num.

Import Py.
Local Open Scope string_scope.

(** [float(s)] for a decimal literal [ [+-] digits [. digits] ] with
    optional surrounding whitespace; [None] where Python raises
    [ValueError].  The value is the exact decimal (rounding to the nearest
    double is not modelled).  Exponents, [inf], [nan] and underscores are
    outside this function's domain: none of the regex captures passed to
    [float] in [_parse_debug_output] can contain them. *)
Definition py_float_dec (s : string) : option Q :=
  let s := strip s in
  let '(neg, s) :=
    match s with
    | String c t => if ceq c "-"%char then (true, t)
                    else if ceq c "+"%char then (false, t) else (false, s)
    | EmptyString => (false, s)
    end in
  let ip := take_while is_digit s in
  let s1 := drop (String.length ip) s in
  let '(fp, s2) :=
    match s1 with
    | String c t =>
        if ceq c "."%char then
          let fp := take_while is_digit t in (fp, drop (String.length fp) t)
        else (EmptyString, s1)
    | EmptyString => (EmptyString, s1)
    end in
  if String.eqb s2 EmptyString && negb (String.eqb (ip ++ fp) EmptyString) then
    let n := digits_value (ip ++ fp) in
    Some (Qred (Qmake (if neg then Z.opp n else n) (Z.to_pos (10 ^ Z.of_nat (String.length fp))%Z)))
  else None.

(** [round(x, 1)]: round half to even at one decimal (on the exact value). *)
Definition round1 (q : Q) : Q :=
  let n := (Qnum q * 10)%Z in
  let d := Zpos (Qden q) in
  let fl := (n / d)%Z in
  let r := (n - fl * d)%Z in
  let k := if (2 * r <? d)%Z then fl
           else if (2 * r >? d)%Z then (fl + 1)%Z
           else if Z.even fl then fl else (fl + 1)%Z in
  Qred (Qmake k 10).

End Num.

(* ------------------------------------------------------------------ *)
(** ** Signal quality assessor: [_assess_signal] *)

Module Assess.

Import Py.
Local Open Scope string_scope.

Section Assess.

(** Python floats, [float()] on a string ([None] when it raises), the
    comparison [x >= k] against an int literal, and truthiness [x != 0.0]. *)
Variable F : Type.
Variable py_float : string -> option F.
Variable f_ge : F -> Z -> bool.
Variable f_truthy : F -> bool.

(** [float(s.replace(suffix, ''))] if [s.endswith(suffix)] else [None];
    the outer [None] is the raised exception. *)
Definition conv (suffix s : string) : option (option F) :=
  if endswith suffix s then
    match py_float (replace suffix EmptyString s) with
    | Some v => Some (Some v)
    | None => None
    end
  else Some None.

(** [(x or d)]: a float operand or the int default. *)
Definition py_or (x : option F) (d : Z) : F + Z :=
  match x with
  | Some v => if f_truthy v then inl v else inr d
  | None => inr d
  end.

Definition num_ge (x : F + Z) (k : Z) : bool :=
  match x with
  | inl v => f_ge v k
  | inr z => (z >=? k)%Z
  end.

Definition _assess_signal (rsrp rsrq snr : string) : string :=
  match conv "dBm" rsrp, conv "dB" rsrq, conv "dB" snr with
  | Some rsrp_val, Some rsrq_val, Some snr_val =>
      match rsrp_val with
      | None => "-"
      | Some r =>
          if f_ge r (-90) && num_ge (py_or snr_val 0) 10 then "Ottimo"
          else if f_ge r (-105) && num_ge (py_or rsrq_val (-40)) (-14) then "Buono"
          else if f_ge r (-115) then "Discreto"
          else "Debole"
      end
  | _, _, _ => "-"
  end.

End Assess.

(** The concrete instance on decimal literals and exact rationals. *)
Definition qge (x : Q) (k : Z) : bool := Qle_bool (inject_Z k) x.
Definition qtruthy (x : Q) : bool := negb (Qeq_bool x 0).

End Assess.

(* ------------------------------------------------------------------ *)
(** ** Session registry: [SessionStore] *)

Module Registry.

Local Open Scope string_scope.

(** [SSHSession]; the paramiko client is an opaque handle, timestamps are
    [time.time()] readings (kept exact). *)
Record SSHSession := {
  token : string;
  client : nat;
  interface : string;
  host : string;
  username : string;
  port : Z;
  created_at : Z
}.

(** The store: the [_sessions] dict, and the handles closed so far. *)
Record store := {
  sessions : gmap string SSHSession;
  closed : list nat
}.

Definition get (st : store) (tok : string) : option SSHSession :=
  sessions st !! tok.

Definition add (st : store) (s : SSHSession) : store :=
  {| sessions := <[token s := s]> (sessions st); closed := closed st |}.

(** [remove]: pop the token, then close the client (errors swallowed). *)
Definition remove (st : store) (tok : string) : store :=
  match sessions st !! tok with
  | Some s => {| sessions := delete tok (sessions st); closed := client s :: closed st |}
  | None => st
  end.

(** [cleanup(max_age_seconds)] at time [now]. *)
Definition cleanup (now max_age_seconds : Z) (st : store) : store :=
  let cutoff := (now - max_age_seconds)%Z in
  let to_remove :=
    map fst (List.filter (fun ts : string * SSHSession => (created_at ts.2 <? cutoff)%Z)
                         (map_to_list (sessions st))) in
  fold_left remove to_remove st.

(** The transport: [_run_ros_cmd(client, cmd)] gives [(out, err)] or
    raises. *)
Definition transport := nat -> string -> result (string * string).

(** Responses of the HTTP handlers: status code and body. *)
Inductive body :=
  | BError
  | BOutput (output : string)
  | BSignals (ati_text debug_text temp_text : string).

Definition response := (Z * body)%type.

Definition nonempty (s : string) : bool := negb (String.eqb s EmptyString).

(** [/send]: the command path. *)
Definition send_command (run : transport) (st : store) (tok command : string)
  : store * response :=
  let command := Py.strip command in
  if negb (nonempty tok) || negb (nonempty command) then (st, (400%Z, BError)) else
  match get st tok with
  | None => (st, (404%Z, BError))
  | Some session =>
      let ros_cmd := Wrapper._build_ros_at_chat_cmd (interface session) command in
      match run (client session) ros_cmd with
      | Raise _ => (remove st tok, (502%Z, BError))
      | Ok (out, err) =>
          let output := if nonempty err
                        then Py.strip_char Py.lf (Py.rstrip out ++ String Py.lf EmptyString ++ err)
                        else out in
          let output := if String.eqb (Py.strip output) EmptyString
                         then "(nessun output)" else output in
          (st, (200%Z, BOutput output))
      end
  end.

(** [_run_at_command]. *)
Definition _run_at_command (run : transport) (session : SSHSession) (at_cmd : string)
  : result string :=
  let ros_cmd := Wrapper._build_ros_at_chat_cmd (interface session) at_cmd in
  match run (client session) ros_cmd with
  | Raise e => Raise e
  | Ok (out, err) =>
      Ok (Py.strip (out ++ (if nonempty err then String Py.lf EmptyString ++ err else EmptyString)))
  end.

(** [/signals]: the snapshot path (the parsing of the three texts is pure
    and leaves the store alone; the body keeps the raw texts). *)
Definition signals (run : transport) (st : store) (tok : string) : store * response :=
  if negb (nonempty tok) then (st, (400%Z, BError)) else
  match get st tok with
  | None => (st, (404%Z, BError))
  | Some session =>
      match _run_at_command run session "ATI" with
      | Raise _ => (st, (502%Z, BError))
      | Ok ati_text =>
          match _run_at_command run session "AT^DEBUG?" with
          | Raise _ => (st, (502%Z, BError))
          | Ok debug_text =>
              match _run_at_command run session "AT^TEMP?" with
              | Raise _ => (st, (502%Z, BError))
              | Ok temp_text => (st, (200%Z, BSignals ati_text debug_text temp_text))
              end
          end
      end
  end.

End Registry.

(* ------------------------------------------------------------------ *)
(** ** Vendor text parser: [_parse_debug_output] *)

Module Debug.

Import Py.
Local Open Scope string_scope.

Inductive tech := LTE | NR.
Inductive role := Primary | Secondary.

Definition tech_eqb (a b : tech) : bool :=
  match a, b with LTE, LTE | NR, NR => true | _, _ => false end.

(** A display string: a literal text, or the f-string [{v}{suffix}] of a
    float [v] (the float's repr is kept symbolic). *)
Inductive disp := DText (s : string) | DNum (v : Q) (suffix : string).

(** [display == s]; the repr of a float followed by a suffix is never one
    of the literal texts compared against here. *)
Definition disp_is (d : disp) (s : string) : bool :=
  match d with DText t => String.eqb t s | DNum _ _ => false end.

Record antenna := { a_label : string; a_value : option Q; a_display : disp }.

(** [current_entry] dicts. *)
Module Entry.
Record t := {
  technology : tech; role : role; ca_index : option nat;
  band : option string; bandwidth : option string;
  channel : option string; pci : option string;
  rsrp : option Q; rsrq : option Q; rssi : option Q; snr : option Q;
  antennas : list antenna; rx_diversity : option string; tx_power : option Q
}.
End Entry.

(** Finalized [detail] dicts and their metrics. *)
Record metric := { m_key : string; m_label : string; m_value : option Q; m_display : disp }.

Module Detail.
Record t := {
  title : string; technology : tech; band : option string; band_display : string;
  bandwidth : string; channel : string; pci : string; rx_diversity : string;
  tx_power : disp; metrics : list metric; antennas : list antenna
}.
End Detail.

(** The [info] dict. *)
Module Info.
Record t := {
  rat : string; mccmnc : string; bands : string; channel : string; channels : string;
  pci : string; cell_id : string; tac : string;
  rsrp : disp; rsrq : disp; snr : disp; rssi : disp;
  rsrp_value : option Q; rsrq_value : option Q; snr_value : option Q; rssi_value : option Q;
  advanced : list Detail.t
}.
End Info.

(** *** Regular-expression searches used by the parser *)

Fixpoint first_some {A} (l : list (option A)) : option A :=
  match l with
  | [] => None
  | Some x :: _ => Some x
  | None :: l' => first_some l'
  end.

(** One attempt, at the head of [s], of [(?:alt1|alt2|...)] (IGNORECASE,
    each alternative here ending in its colon), then [\s*] when [ws], then
    a group [(cls+)]; returns the group. *)
Definition rx_at (alts : list string) (ws : bool) (cls : ascii -> bool) (s : string)
  : option string :=
  first_some (map (fun alt =>
    if startswith_ci alt s then
      let r := drop (String.length alt) s in
      let r := if ws then drop_while is_space r else r in
      let tok := take_while cls r in
      if String.eqb tok EmptyString then None else Some tok
    else None) alts).

(** [re.search]: the leftmost position where the attempt succeeds. *)
Fixpoint rx_search {A} (f : string -> option A) (s : string) : option A :=
  match f s with
  | Some r => Some r
  | None => match s with
            | EmptyString => None
            | String _ s' => rx_search f s'
            end
  end.

Definition search (alts : list string) (ws : bool) (cls : ascii -> bool) (s : string)
  : option string := rx_search (rx_at alts ws cls) s.

(** [[-\d.]] *)
Definition num_cls (c : ascii) : bool := ceq c "-"%char || is_digit c || ceq c "."%char.
(** [[^\s]] *)
Definition nonspace (c : ascii) : bool := negb (is_space c).
(** [[\w/+-]] *)
Definition band_cls (c : ascii) : bool :=
  is_word c || ceq c "/"%char || ceq c "+"%char || ceq c "-"%char.

(** [_to_float] *)
Definition _to_float (value : string) : option Q := Num.py_float_dec value.

(** One attempt of [([-+]?\d+(?:\.\d+)?)]. *)
Definition float_tok_at (s : string) : option string :=
  let '(sg, r) :=
    match s with
    | String c t => if ceq c "-"%char || ceq c "+"%char then (str1 c, t) else (EmptyString, s)
    | EmptyString => (EmptyString, s)
    end in
  let ip := take_while is_digit r in
  if String.eqb ip EmptyString then None else
  let r2 := drop (String.length ip) r in
  let frac :=
    match r2 with
    | String c t =>
        if ceq c "."%char then
          let fd := take_while is_digit t in
          if String.eqb fd EmptyString then EmptyString else str1 c ++ fd
        else EmptyString
    | EmptyString => EmptyString
    end in
  Some (sg ++ ip ++ frac).

(** [_extract_first_float] *)
Definition _extract_first_float (value : string) : option Q :=
  match rx_search float_tok_at value with
  | Some tok => _to_float tok
  | None => None
  end.

(** [_round_value] ([value != value] never holds on the exact model). *)
Definition _round_value (value : option Q) : option Q :=
  match value with Some v => Some (Num.round1 v) | None => None end.

(** One attempt of [\(([^)]+)\)]. *)
Definition paren_at (s : string) : option string :=
  match s with
  | String c t =>
      if ceq c "("%char then
        let inner := take_while (fun d => negb (ceq d ")"%char)) t in
        if String.eqb inner EmptyString then None
        else match drop (String.length inner) t with
             | String _ _ => Some inner
             | EmptyString => None
             end
      else None
  | EmptyString => None
  end.

(** [s.split(",")] *)
Fixpoint split_comma_go (s cur : string) : list string :=
  match s with
  | EmptyString => [cur]
  | String c s' => if ceq c ","%char then cur :: split_comma_go s' EmptyString
                   else split_comma_go s' (cur ++ str1 c)
  end.
Definition split_comma (s : string) : list string := split_comma_go s EmptyString.

(** [s.split(", ")] *)
Fixpoint split_comma_space_go (s cur : string) : list string :=
  match s with
  | EmptyString => [cur]
  | String c s' =>
      if ceq c ","%char then
        match s' with
        | String d s'' => if ceq d " "%char then cur :: split_comma_space_go s'' EmptyString
                          else split_comma_space_go s' (cur ++ str1 c)
        | EmptyString => split_comma_space_go s' (cur ++ str1 c)
        end
      else split_comma_space_go s' (cur ++ str1 c)
  end.
Definition split_comma_space (s : string) : list string := split_comma_space_go s EmptyString.

Definition nat_str (n : nat) : string := NilEmpty.string_of_uint (Nat.to_uint n).

(** [_parse_antennas(line)] with the default prefix ["Antenna"]. *)
Definition _parse_antennas (line : string) : list antenna :=
  match rx_search paren_at line with
  | None => []
  | Some grp =>
      let fix go (idx : nat) (items : list string) : list antenna :=
        match items with
        | [] => []
        | item :: rest =>
            let value := _extract_first_float (strip item) in
            {| a_label := "Antenna " ++ nat_str (S idx);
               a_value := value;
               a_display := match value with Some v => DNum v " dBm" | None => DText "N/A" end |}
            :: go (S idx) rest
        end in
      go 0 (split_comma grp)
  end.


(** *** Updates of single dict keys *)

Definition set_band (x : Entry.t) (v : option string) : Entry.t :=
  {| Entry.technology := Entry.technology x; Entry.role := Entry.role x; Entry.ca_index := Entry.ca_index x; Entry.band := v; Entry.bandwidth := Entry.bandwidth x; Entry.channel := Entry.channel x; Entry.pci := Entry.pci x; Entry.rsrp := Entry.rsrp x; Entry.rsrq := Entry.rsrq x; Entry.rssi := Entry.rssi x; Entry.snr := Entry.snr x; Entry.antennas := Entry.antennas x; Entry.rx_diversity := Entry.rx_diversity x; Entry.tx_power := Entry.tx_power x |}.
Definition set_bandwidth (x : Entry.t) (v : option string) : Entry.t :=
  {| Entry.technology := Entry.technology x; Entry.role := Entry.role x; Entry.ca_index := Entry.ca_index x; Entry.band := Entry.band x; Entry.bandwidth := v; Entry.channel := Entry.channel x; Entry.pci := Entry.pci x; Entry.rsrp := Entry.rsrp x; Entry.rsrq := Entry.rsrq x; Entry.rssi := Entry.rssi x; Entry.snr := Entry.snr x; Entry.antennas := Entry.antennas x; Entry.rx_diversity := Entry.rx_diversity x; Entry.tx_power := Entry.tx_power x |}.
Definition set_channel (x : Entry.t) (v : option string) : Entry.t :=
  {| Entry.technology := Entry.technology x; Entry.role := Entry.role x; Entry.ca_index := Entry.ca_index x; Entry.band := Entry.band x; Entry.bandwidth := Entry.bandwidth x; Entry.channel := v; Entry.pci := Entry.pci x; Entry.rsrp := Entry.rsrp x; Entry.rsrq := Entry.rsrq x; Entry.rssi := Entry.rssi x; Entry.snr := Entry.snr x; Entry.antennas := Entry.antennas x; Entry.rx_diversity := Entry.rx_diversity x; Entry.tx_power := Entry.tx_power x |}.
Definition set_pci (x : Entry.t) (v : option string) : Entry.t :=
  {| Entry.technology := Entry.technology x; Entry.role := Entry.role x; Entry.ca_index := Entry.ca_index x; Entry.band := Entry.band x; Entry.bandwidth := Entry.bandwidth x; Entry.channel := Entry.channel x; Entry.pci := v; Entry.rsrp := Entry.rsrp x; Entry.rsrq := Entry.rsrq x; Entry.rssi := Entry.rssi x; Entry.snr := Entry.snr x; Entry.antennas := Entry.antennas x; Entry.rx_diversity := Entry.rx_diversity x; Entry.tx_power := Entry.tx_power x |}.
Definition set_rsrp (x : Entry.t) (v : option Q) : Entry.t :=
  {| Entry.technology := Entry.technology x; Entry.role := Entry.role x; Entry.ca_index := Entry.ca_index x; Entry.band := Entry.band x; Entry.bandwidth := Entry.bandwidth x; Entry.channel := Entry.channel x; Entry.pci := Entry.pci x; Entry.rsrp := v; Entry.rsrq := Entry.rsrq x; Entry.rssi := Entry.rssi x; Entry.snr := Entry.snr x; Entry.antennas := Entry.antennas x; Entry.rx_diversity := Entry.rx_diversity x; Entry.tx_power := Entry.tx_power x |}.
Definition set_rsrq (x : Entry.t) (v : option Q) : Entry.t :=
  {| Entry.technology := Entry.technology x; Entry.role := Entry.role x; Entry.ca_index := Entry.ca_index x; Entry.band := Entry.band x; Entry.bandwidth := Entry.bandwidth x; Entry.channel := Entry.channel x; Entry.pci := Entry.pci x; Entry.rsrp := Entry.rsrp x; Entry.rsrq := v; Entry.rssi := Entry.rssi x; Entry.snr := Entry.snr x; Entry.antennas := Entry.antennas x; Entry.rx_diversity := Entry.rx_diversity x; Entry.tx_power := Entry.tx_power x |}.
Definition set_rssi (x : Entry.t) (v : option Q) : Entry.t :=
  {| Entry.technology := Entry.technology x; Entry.role := Entry.role x; Entry.ca_index := Entry.ca_index x; Entry.band := Entry.band x; Entry.bandwidth := Entry.bandwidth x; Entry.channel := Entry.channel x; Entry.pci := Entry.pci x; Entry.rsrp := Entry.rsrp x; Entry.rsrq := Entry.rsrq x; Entry.rssi := v; Entry.snr := Entry.snr x; Entry.antennas := Entry.antennas x; Entry.rx_diversity := Entry.rx_diversity x; Entry.tx_power := Entry.tx_power x |}.
Definition set_snr (x : Entry.t) (v : option Q) : Entry.t :=
  {| Entry.technology := Entry.technology x; Entry.role := Entry.role x; Entry.ca_index := Entry.ca_index x; Entry.band := Entry.band x; Entry.bandwidth := Entry.bandwidth x; Entry.channel := Entry.channel x; Entry.pci := Entry.pci x; Entry.rsrp := Entry.rsrp x; Entry.rsrq := Entry.rsrq x; Entry.rssi := Entry.rssi x; Entry.snr := v; Entry.antennas := Entry.antennas x; Entry.rx_diversity := Entry.rx_diversity x; Entry.tx_power := Entry.tx_power x |}.
Definition set_antennas (x : Entry.t) (v : list antenna) : Entry.t :=
  {| Entry.technology := Entry.technology x; Entry.role := Entry.role x; Entry.ca_index := Entry.ca_index x; Entry.band := Entry.band x; Entry.bandwidth := Entry.bandwidth x; Entry.channel := Entry.channel x; Entry.pci := Entry.pci x; Entry.rsrp := Entry.rsrp x; Entry.rsrq := Entry.rsrq x; Entry.rssi := Entry.rssi x; Entry.snr := Entry.snr x; Entry.antennas := v; Entry.rx_diversity := Entry.rx_diversity x; Entry.tx_power := Entry.tx_power x |}.
Definition set_rx_diversity (x : Entry.t) (v : option string) : Entry.t :=
  {| Entry.technology := Entry.technology x; Entry.role := Entry.role x; Entry.ca_index := Entry.ca_index x; Entry.band := Entry.band x; Entry.bandwidth := Entry.bandwidth x; Entry.channel := Entry.channel x; Entry.pci := Entry.pci x; Entry.rsrp := Entry.rsrp x; Entry.rsrq := Entry.rsrq x; Entry.rssi := Entry.rssi x; Entry.snr := Entry.snr x; Entry.antennas := Entry.antennas x; Entry.rx_diversity := v; Entry.tx_power := Entry.tx_power x |}.
Definition iset_rat (x : Info.t) (v : string) : Info.t :=
  {| Info.rat := v; Info.mccmnc := Info.mccmnc x; Info.bands := Info.bands x; Info.channel := Info.channel x; Info.channels := Info.channels x; Info.pci := Info.pci x; Info.cell_id := Info.cell_id x; Info.tac := Info.tac x; Info.rsrp := Info.rsrp x; Info.rsrq := Info.rsrq x; Info.snr := Info.snr x; Info.rssi := Info.rssi x; Info.rsrp_value := Info.rsrp_value x; Info.rsrq_value := Info.rsrq_value x; Info.snr_value := Info.snr_value x; Info.rssi_value := Info.rssi_value x; Info.advanced := Info.advanced x |}.
Definition iset_mccmnc (x : Info.t) (v : string) : Info.t :=
  {| Info.rat := Info.rat x; Info.mccmnc := v; Info.bands := Info.bands x; Info.channel := Info.channel x; Info.channels := Info.channels x; Info.pci := Info.pci x; Info.cell_id := Info.cell_id x; Info.tac := Info.tac x; Info.rsrp := Info.rsrp x; Info.rsrq := Info.rsrq x; Info.snr := Info.snr x; Info.rssi := Info.rssi x; Info.rsrp_value := Info.rsrp_value x; Info.rsrq_value := Info.rsrq_value x; Info.snr_value := Info.snr_value x; Info.rssi_value := Info.rssi_value x; Info.advanced := Info.advanced x |}.
Definition iset_bands (x : Info.t) (v : string) : Info.t :=
  {| Info.rat := Info.rat x; Info.mccmnc := Info.mccmnc x; Info.bands := v; Info.channel := Info.channel x; Info.channels := Info.channels x; Info.pci := Info.pci x; Info.cell_id := Info.cell_id x; Info.tac := Info.tac x; Info.rsrp := Info.rsrp x; Info.rsrq := Info.rsrq x; Info.snr := Info.snr x; Info.rssi := Info.rssi x; Info.rsrp_value := Info.rsrp_value x; Info.rsrq_value := Info.rsrq_value x; Info.snr_value := Info.snr_value x; Info.rssi_value := Info.rssi_value x; Info.advanced := Info.advanced x |}.
Definition iset_channel (x : Info.t) (v : string) : Info.t :=
  {| Info.rat := Info.rat x; Info.mccmnc := Info.mccmnc x; Info.bands := Info.bands x; Info.channel := v; Info.channels := Info.channels x; Info.pci := Info.pci x; Info.cell_id := Info.cell_id x; Info.tac := Info.tac x; Info.rsrp := Info.rsrp x; Info.rsrq := Info.rsrq x; Info.snr := Info.snr x; Info.rssi := Info.rssi x; Info.rsrp_value := Info.rsrp_value x; Info.rsrq_value := Info.rsrq_value x; Info.snr_value := Info.snr_value x; Info.rssi_value := Info.rssi_value x; Info.advanced := Info.advanced x |}.
Definition iset_channels (x : Info.t) (v : string) : Info.t :=
  {| Info.rat := Info.rat x; Info.mccmnc := Info.mccmnc x; Info.bands := Info.bands x; Info.channel := Info.channel x; Info.channels := v; Info.pci := Info.pci x; Info.cell_id := Info.cell_id x; Info.tac := Info.tac x; Info.rsrp := Info.rsrp x; Info.rsrq := Info.rsrq x; Info.snr := Info.snr x; Info.rssi := Info.rssi x; Info.rsrp_value := Info.rsrp_value x; Info.rsrq_value := Info.rsrq_value x; Info.snr_value := Info.snr_value x; Info.rssi_value := Info.rssi_value x; Info.advanced := Info.advanced x |}.
Definition iset_pci (x : Info.t) (v : string) : Info.t :=
  {| Info.rat := Info.rat x; Info.mccmnc := Info.mccmnc x; Info.bands := Info.bands x; Info.channel := Info.channel x; Info.channels := Info.channels x; Info.pci := v; Info.cell_id := Info.cell_id x; Info.tac := Info.tac x; Info.rsrp := Info.rsrp x; Info.rsrq := Info.rsrq x; Info.snr := Info.snr x; Info.rssi := Info.rssi x; Info.rsrp_value := Info.rsrp_value x; Info.rsrq_value := Info.rsrq_value x; Info.snr_value := Info.snr_value x; Info.rssi_value := Info.rssi_value x; Info.advanced := Info.advanced x |}.
Definition iset_cell_id (x : Info.t) (v : string) : Info.t :=
  {| Info.rat := Info.rat x; Info.mccmnc := Info.mccmnc x; Info.bands := Info.bands x; Info.channel := Info.channel x; Info.channels := Info.channels x; Info.pci := Info.pci x; Info.cell_id := v; Info.tac := Info.tac x; Info.rsrp := Info.rsrp x; Info.rsrq := Info.rsrq x; Info.snr := Info.snr x; Info.rssi := Info.rssi x; Info.rsrp_value := Info.rsrp_value x; Info.rsrq_value := Info.rsrq_value x; Info.snr_value := Info.snr_value x; Info.rssi_value := Info.rssi_value x; Info.advanced := Info.advanced x |}.
Definition iset_tac (x : Info.t) (v : string) : Info.t :=
  {| Info.rat := Info.rat x; Info.mccmnc := Info.mccmnc x; Info.bands := Info.bands x; Info.channel := Info.channel x; Info.channels := Info.channels x; Info.pci := Info.pci x; Info.cell_id := Info.cell_id x; Info.tac := v; Info.rsrp := Info.rsrp x; Info.rsrq := Info.rsrq x; Info.snr := Info.snr x; Info.rssi := Info.rssi x; Info.rsrp_value := Info.rsrp_value x; Info.rsrq_value := Info.rsrq_value x; Info.snr_value := Info.snr_value x; Info.rssi_value := Info.rssi_value x; Info.advanced := Info.advanced x |}.
Definition iset_advanced (x : Info.t) (v : list Detail.t) : Info.t :=
  {| Info.rat := Info.rat x; Info.mccmnc := Info.mccmnc x; Info.bands := Info.bands x; Info.channel := Info.channel x; Info.channels := Info.channels x; Info.pci := Info.pci x; Info.cell_id := Info.cell_id x; Info.tac := Info.tac x; Info.rsrp := Info.rsrp x; Info.rsrq := Info.rsrq x; Info.snr := Info.snr x; Info.rssi := Info.rssi x; Info.rsrp_value := Info.rsrp_value x; Info.rsrq_value := Info.rsrq_value x; Info.snr_value := Info.snr_value x; Info.rssi_value := Info.rssi_value x; Info.advanced := v |}.
(** Sets [rsrp_value] and its display string [rsrp]. *)
Definition iset_rsrp (x : Info.t) (v : option Q) : Info.t :=
  {| Info.rat := Info.rat x; Info.mccmnc := Info.mccmnc x; Info.bands := Info.bands x; Info.channel := Info.channel x; Info.channels := Info.channels x; Info.pci := Info.pci x; Info.cell_id := Info.cell_id x; Info.tac := Info.tac x; Info.rsrp := match v with Some y => DNum y "dBm" | None => DText "-" end; Info.rsrq := Info.rsrq x; Info.snr := Info.snr x; Info.rssi := Info.rssi x; Info.rsrp_value := v; Info.rsrq_value := Info.rsrq_value x; Info.snr_value := Info.snr_value x; Info.rssi_value := Info.rssi_value x; Info.advanced := Info.advanced x |}.
(** Sets [rsrq_value] and its display string [rsrq]. *)
Definition iset_rsrq (x : Info.t) (v : option Q) : Info.t :=
  {| Info.rat := Info.rat x; Info.mccmnc := Info.mccmnc x; Info.bands := Info.bands x; Info.channel := Info.channel x; Info.channels := Info.channels x; Info.pci := Info.pci x; Info.cell_id := Info.cell_id x; Info.tac := Info.tac x; Info.rsrp := Info.rsrp x; Info.rsrq := match v with Some y => DNum y "dB" | None => DText "-" end; Info.snr := Info.snr x; Info.rssi := Info.rssi x; Info.rsrp_value := Info.rsrp_value x; Info.rsrq_value := v; Info.snr_value := Info.snr_value x; Info.rssi_value := Info.rssi_value x; Info.advanced := Info.advanced x |}.
(** Sets [snr_value] and its display string [snr]. *)
Definition iset_snr (x : Info.t) (v : option Q) : Info.t :=
  {| Info.rat := Info.rat x; Info.mccmnc := Info.mccmnc x; Info.bands := Info.bands x; Info.channel := Info.channel x; Info.channels := Info.channels x; Info.pci := Info.pci x; Info.cell_id := Info.cell_id x; Info.tac := Info.tac x; Info.rsrp := Info.rsrp x; Info.rsrq := Info.rsrq x; Info.snr := match v with Some y => DNum y "dB" | None => DText "-" end; Info.rssi := Info.rssi x; Info.rsrp_value := Info.rsrp_value x; Info.rsrq_value := Info.rsrq_value x; Info.snr_value := v; Info.rssi_value := Info.rssi_value x; Info.advanced := Info.advanced x |}.
(** Sets [rssi_value] and its display string [rssi]. *)
Definition iset_rssi (x : Info.t) (v : option Q) : Info.t :=
  {| Info.rat := Info.rat x; Info.mccmnc := Info.mccmnc x; Info.bands := Info.bands x; Info.channel := Info.channel x; Info.channels := Info.channels x; Info.pci := Info.pci x; Info.cell_id := Info.cell_id x; Info.tac := Info.tac x; Info.rsrp := Info.rsrp x; Info.rsrq := Info.rsrq x; Info.snr := Info.snr x; Info.rssi := match v with Some y => DNum y "dBm" | None => DText "-" end; Info.rsrp_value := Info.rsrp_value x; Info.rsrq_value := Info.rsrq_value x; Info.snr_value := Info.snr_value x; Info.rssi_value := v; Info.advanced := Info.advanced x |}.

(** [entry.get(k)] truthiness for optional strings. *)
Definition truthy (o : option string) : bool :=
  match o with Some v => negb (String.eqb v EmptyString) | None => false end.

(** [x or d] for optional strings. *)
Definition or_str (o : option string) (d : string) : string :=
  match o with Some v => if String.eqb v EmptyString then d else v | None => d end.

(** *** [_finalize_entry] *)

Definition add_metric (key label : string) (value : option Q) (unit : string) : metric :=
  let normalized := _round_value value in
  {| m_key := key; m_label := label; m_value := normalized;
     m_display := match normalized with Some v => DNum v (" " ++ unit) | None => DText "N/A" end |}.

Definition finalize_detail (e : Entry.t) : Detail.t :=
  let is_lte := tech_eqb (Entry.technology e) LTE in
  let band_display :=
    if is_lte && truthy (Entry.band e) then "Band " ++ or_str (Entry.band e) EmptyString
    else or_str (Entry.band e) "N/A" in
  let title := if is_lte then "Primary 4G" else "Primary 5G" in
  let title :=
    match Entry.role e with
    | Secondary => if is_lte then strip ("CA 4G #" ++ match Entry.ca_index e with
                                                         | Some k => nat_str k
                                                         | None => EmptyString end)
                   else title
    | Primary => title
    end in
  let title := if String.eqb band_display "N/A" then title
               else title ++ " (" ++ band_display ++ ")" in
  {| Detail.title := title;
     Detail.technology := Entry.technology e;
     Detail.band := Entry.band e;
     Detail.band_display := band_display;
     Detail.bandwidth := or_str (Entry.bandwidth e) "-";
     Detail.channel := or_str (Entry.channel e) "-";
     Detail.pci := or_str (Entry.pci e) "-";
     Detail.rx_diversity := or_str (Entry.rx_diversity e) EmptyString;
     Detail.tx_power := match Entry.tx_power e with
                        | Some v => DNum (Num.round1 v) " dBm"
                        | None => DText EmptyString end;
     Detail.metrics :=
       [add_metric "rsrq" (if is_lte then "RSRQ" else "SS_RSRQ") (Entry.rsrq e) "dB";
        add_metric "rsrp" (if is_lte then "RSRP" else "SS_RSRP") (Entry.rsrp e) "dBm";
        add_metric "rssi" "RSSI" (Entry.rssi e) "dBm";
        add_metric "snr" (if is_lte then "SINR" else "SS_SINR") (Entry.snr e) "dB"];
     Detail.antennas := Entry.antennas e |}.

(** [_finalize_entry(entry, advanced)]: appends the detail when there is an
    entry. *)
Definition _finalize_entry (entry : option Entry.t) (advanced : list Detail.t) : list Detail.t :=
  match entry with
  | Some e => app advanced [finalize_detail e]
  | None => advanced
  end.

(** *** Parser state *)

Record pstate := {
  info : Info.t;
  current_entry : option Entry.t;
  scell_counter : nat;
  advanced_entries : list Detail.t;
  pending_lte_antennas : list antenna;
  pending_lte_diversity : option string;
  pending_lte_tx_power : option Q;
  pending_nr_tx_power : option Q
}.

Definition info0 : Info.t :=
  {| Info.rat := "-"; Info.mccmnc := "-"; Info.bands := "-"; Info.channel := "-";
     Info.channels := "-"; Info.pci := "-"; Info.cell_id := "-"; Info.tac := "-";
     Info.rsrp := DText "-"; Info.rsrq := DText "-"; Info.snr := DText "-"; Info.rssi := DText "-";
     Info.rsrp_value := None; Info.rsrq_value := None; Info.snr_value := None;
     Info.rssi_value := None; Info.advanced := [] |}.

Definition pstate0 : pstate :=
  {| info := info0; current_entry := None; scell_counter := 0; advanced_entries := [];
     pending_lte_antennas := []; pending_lte_diversity := None;
     pending_lte_tx_power := None; pending_nr_tx_power := None |}.

Definition with_info (st : pstate) (i : Info.t) : pstate :=
  {| info := i; current_entry := current_entry st; scell_counter := scell_counter st;
     advanced_entries := advanced_entries st; pending_lte_antennas := pending_lte_antennas st;
     pending_lte_diversity := pending_lte_diversity st;
     pending_lte_tx_power := pending_lte_tx_power st;
     pending_nr_tx_power := pending_nr_tx_power st |}.

Definition with_entry (st : pstate) (i : Info.t) (e : Entry.t) : pstate :=
  {| info := i; current_entry := Some e; scell_counter := scell_counter st;
     advanced_entries := advanced_entries st; pending_lte_antennas := pending_lte_antennas st;
     pending_lte_diversity := pending_lte_diversity st;
     pending_lte_tx_power := pending_lte_tx_power st;
     pending_nr_tx_power := pending_nr_tx_power st |}.

Definition with_pending (st : pstate) (ants : list antenna) (div : option string)
    (lte_tx nr_tx : option Q) : pstate :=
  {| info := info st; current_entry := current_entry st; scell_counter := scell_counter st;
     advanced_entries := advanced_entries st; pending_lte_antennas := ants;
     pending_lte_diversity := div; pending_lte_tx_power := lte_tx;
     pending_nr_tx_power := nr_tx |}.


(** *** One line of the loop *)

(** Truthiness of a [re.search] result. *)
Definition is_some {A} (o : option A) : bool := match o with Some _ => true | None => false end.

(** [line = raw_line.strip()] and the ["output:"] marker; [None] where the
    loop [continue]s on an empty line. *)
Definition normalize (raw_line : string) : option string :=
  let line := strip raw_line in
  if String.eqb line EmptyString then None
  else if startswith_ci "output:" line then
    let line := strip (after_colon line) in
    if String.eqb line EmptyString then None else Some line
  else Some line.

Definition new_entry (tech : tech) (r : role) (ca : option nat) (ants : list antenna)
  (div : option string) (tx : option Q) : Entry.t :=
  {| Entry.technology := tech; Entry.role := r; Entry.ca_index := ca;
     Entry.band := None; Entry.bandwidth := None; Entry.channel := None; Entry.pci := None;
     Entry.rsrp := None; Entry.rsrq := None; Entry.rssi := None; Entry.snr := None;
     Entry.antennas := ants; Entry.rx_diversity := div; Entry.tx_power := tx |}.

(** [if info.get("bands") == "-": info["bands"] = b] *)
Definition seed_bands (i : Info.t) (b : string) : Info.t :=
  if String.eqb (Info.bands i) "-" then iset_bands i b else i.

(** Inline band and bandwidth of an LTE header line. *)
Definition lte_header_fields (line : string) (e : Entry.t) (i : Info.t) : Entry.t * Info.t :=
  let band_match := search ["lte_band:"] false is_digit line in
  let bw_match := search ["lte_band_width:"] false nonspace line in
  let '(e, i) := match band_match with
                 | Some b => (set_band e (Some b), seed_bands i b)
                 | None => (e, i) end in
  match bw_match with
  | Some w => (set_bandwidth e (Some w), i)
  | None => (e, i)
  end.

(** Inline band of an NR header line. *)
Definition nr_header_fields (line : string) (e : Entry.t) (i : Info.t) : Entry.t * Info.t :=
  match search ["nr_band:"] false nonspace line with
  | Some b => (set_band e (Some b), seed_bands i b)
  | None => (e, i)
  end.

(** The state after a header line: previous entry finalized, [e] opened. *)
Definition opened (st : pstate) (ei : Entry.t * Info.t) (counter : nat)
  (ants : list antenna) (div : option string) (lte_tx nr_tx : option Q) : pstate :=
  {| info := ei.2; current_entry := Some ei.1; scell_counter := counter;
     advanced_entries := _finalize_entry (current_entry st) (advanced_entries st);
     pending_lte_antennas := ants; pending_lte_diversity := div;
     pending_lte_tx_power := lte_tx; pending_nr_tx_power := nr_tx |}.

(** A metric key:value pair read into the current entry, seeding the
    top-level field when it is still ["-"]. *)
Definition metric_upd (pat line : string) (setE : Entry.t -> option Q -> Entry.t)
  (getD : Info.t -> disp) (setI : Info.t -> option Q -> Info.t) (ei : Entry.t * Info.t)
  : Entry.t * Info.t :=
  let '(e, i) := ei in
  match search [pat] false num_cls line with
  | Some tok => let v := _to_float tok in
                (setE e v, if disp_is (getD i) "-" then setI i v else i)
  | None => (e, i)
  end.

Definition seed_channel (i : Info.t) (c : string) : Info.t :=
  if String.eqb (Info.channel i) "-" then iset_channel i c else i.
Definition seed_pci (i : Info.t) (c : string) : Info.t :=
  if String.eqb (Info.pci i) "-" then iset_pci i c else i.

(** The [if current_entry:] block; [None] where no branch [continue]s. *)
Definition entry_line (e : Entry.t) (i : Info.t) (line : string) : option (Entry.t * Info.t) :=
  let lte := tech_eqb (Entry.technology e) LTE in
  let nr := tech_eqb (Entry.technology e) NR in
  if startswith "channel:" line && lte then
    let '(e, i) := match search ["channel:"] false is_digit line with
                   | Some c => (set_channel e (Some c), seed_channel i c)
                   | None => (e, i) end in
    Some (match search ["pci:"] false is_digit line with
          | Some c => (set_pci e (Some c), seed_pci i c)
          | None => (e, i) end)
  else if startswith "nr_channel:" line && nr then
    let c := strip (after_colon line) in Some (set_channel e (Some c), seed_channel i c)
  else if startswith "nr_pci:" line && nr then
    let c := strip (after_colon line) in Some (set_pci e (Some c), seed_pci i c)
  else if startswith "nr_band_width:" line && nr then
    Some (set_bandwidth e (Some (strip (after_colon line))), i)
  else if startswith "lte_rsrp:" line && lte then
    Some (metric_upd "rsrq:" line set_rsrq Info.rsrq iset_rsrq
           (metric_upd "lte_rsrp:" line set_rsrp Info.rsrp iset_rsrp (e, i)))
  else if startswith "lte_rssi:" line && lte then
    Some (metric_upd "lte_snr:" line set_snr Info.snr iset_snr
           (metric_upd "lte_rssi:" line set_rssi Info.rssi iset_rssi (e, i)))
  else if startswith "nr_rsrp:" line && nr then
    let '(e, i) := metric_upd "nr_rsrp:" line set_rsrp Info.rsrp iset_rsrp (e, i) in
    let e := match search ["rx_diversity:"] false is_digit line with
             | Some d => set_rx_diversity e (Some d)
             | None => e end in
    let ants := _parse_antennas line in
    Some (match ants with [] => e | _ => set_antennas e ants end, i)
  else if startswith "nr_rsrq:" line && nr then
    Some (metric_upd "nr_rsrq:" line set_rsrq Info.rsrq iset_rsrq (e, i))
  else if startswith "nr_rssi:" line && nr then
    Some (metric_upd "nr_rssi:" line set_rssi Info.rssi iset_rssi (e, i))
  else if startswith "nr_snr:" line && nr then
    Some (metric_upd "nr_snr:" line set_snr Info.snr iset_snr (e, i))
  else None.

(** The generic matches at the end of the loop body, one per statement. *)
Definition g_cell (line : string) (i : Info.t) : Info.t :=
  match search ["lte_cell_id:"; "nr_cell_id:"] false is_digit line with
  | Some c => iset_cell_id i c | None => i end.
Definition g_tac (line : string) (i : Info.t) : Info.t :=
  match search ["lte_tac:"; "nr_tac:"] false is_digit line with
  | Some c => iset_tac i c | None => i end.
Definition g_channel (line : string) (i : Info.t) : Info.t :=
  match search ["channel:"] false is_digit line with
  | Some c => seed_channel i c | None => i end.
Definition g_pci (line : string) (i : Info.t) : Info.t :=
  match search ["pci:"] false is_digit line with
  | Some c => seed_pci i c | None => i end.
Definition g_band (line : string) (i : Info.t) : Info.t :=
  match search ["lte_band:"; "nr_band:"] false band_cls line with
  | Some b =>
      let existing := if String.eqb (Info.bands i) "-" then [] else split_comma_space (Info.bands i) in
      let existing := if existsb (String.eqb b) existing then existing else app existing [b] in
      iset_bands i (String.concat ", " existing)
  | None => i
  end.
Definition g_metric (alts : list string) (ws : bool) (getD : Info.t -> disp)
  (setI : Info.t -> option Q -> Info.t) (line : string) (i : Info.t) : Info.t :=
  match search alts ws num_cls line with
  | Some tok => if disp_is (getD i) "-" then setI i (_to_float tok) else i
  | None => i
  end.
Definition g_rsrp := g_metric ["lte_rsrp:"; "nr_rsrp:"] true Info.rsrp iset_rsrp.
Definition g_rsrq := g_metric ["rsrq:"; "nr_rsrq:"] true Info.rsrq iset_rsrq.
Definition g_snr := g_metric ["lte_snr:"; "nr_snr:"] true Info.snr iset_snr.
Definition g_rssi := g_metric ["lte_rssi:"] false Info.rssi iset_rssi.

Definition generic_update (line : string) (i : Info.t) : Info.t :=
  g_rssi line (g_snr line (g_rsrq line (g_rsrp line (g_band line
    (g_pci line (g_channel line (g_tac line (g_cell line i)))))))).

(** The loop body on a normalized line. *)
Definition process_line (st : pstate) (line : string) : pstate :=
  if startswith_ci "rat:" line then
    with_info st (iset_rat (info st) (strip (after_colon line)))
  else if is_some (search ["mcc:"] false is_digit line) && is_some (search ["mnc:"] false is_digit line) then
    match search ["mcc:"] false is_digit line, search ["mnc:"] false is_digit line with
    | Some mcc, Some mnc => with_info st (iset_mccmnc (info st) (mcc ++ "/" ++ mnc))
    | _, _ => st
    end
  else if startswith "lte_ant_rsrp" line then
    let div := match search ["rx_diversity:"] false is_digit line with
               | Some d => Some d | None => pending_lte_diversity st end in
    with_pending st (_parse_antennas line) div (pending_lte_tx_power st) (pending_nr_tx_power st)
  else if startswith "lte_tx_pwr" line then
    with_pending st (pending_lte_antennas st) (pending_lte_diversity st)
      (_extract_first_float line) (pending_nr_tx_power st)
  else if startswith "nr_tx_pwr" line then
    with_pending st (pending_lte_antennas st) (pending_lte_diversity st)
      (pending_lte_tx_power st) (_extract_first_float line)
  else if startswith "pcell:" line then
    let e := new_entry LTE Primary None (pending_lte_antennas st)
               (pending_lte_diversity st) (pending_lte_tx_power st) in
    opened st (lte_header_fields line e (info st)) (scell_counter st)
      [] None None (pending_nr_tx_power st)
  else if startswith "scell:" line then
    let k := S (scell_counter st) in
    let e := new_entry LTE Secondary (Some k) [] None None in
    opened st (lte_header_fields line e (info st)) k
      (pending_lte_antennas st) (pending_lte_diversity st)
      (pending_lte_tx_power st) (pending_nr_tx_power st)
  else if startswith "nr_band:" line then
    let e := new_entry NR Primary None [] None (pending_nr_tx_power st) in
    opened st (nr_header_fields line e (info st)) (scell_counter st)
      (pending_lte_antennas st) (pending_lte_diversity st) (pending_lte_tx_power st) None
  else
    match current_entry st with
    | Some e =>
        match entry_line e (info st) line with
        | Some (e', i') => with_entry st i' e'
        | None => with_info st (generic_update line (info st))
        end
    | None => with_info st (generic_update line (info st))
    end.

Definition step (st : pstate) (raw_line : string) : pstate :=
  match normalize raw_line with
  | Some line => process_line st line
  | None => st
  end.

(** *** Derived display strings *)

Definition nr_prefixed (t : tech) (b : string) : string :=
  if tech_eqb t NR && negb (startswith_ci "n" b) then "n" ++ b else b.

Fixpoint band_display_go (entries : list Detail.t) (seen : list string) : list string :=
  match entries with
  | [] => []
  | d :: ds =>
      if truthy (Detail.band d) then
        let nb := nr_prefixed (Detail.technology d) (strip (or_str (Detail.band d) EmptyString)) in
        if existsb (String.eqb nb) seen then band_display_go ds seen
        else nb :: band_display_go ds (nb :: seen)
      else band_display_go ds seen
  end.

Definition join_plus (l : list string) : string :=
  match l with [] => "-" | _ => String.concat " + " l end.

Definition _build_band_display (entries : list Detail.t) : string :=
  join_plus (band_display_go entries []).

Definition channel_label (d : Detail.t) : list string :=
  if String.eqb (Detail.channel d) EmptyString then [] else
  let nb := if truthy (Detail.band d)
            then Some (nr_prefixed (Detail.technology d) (or_str (Detail.band d) EmptyString))
            else Detail.band d in
  let label := strip (Detail.channel d) in
  [if truthy nb then label ++ " (" ++ or_str nb EmptyString ++ ")" else label].

Definition _build_channel_display (entries : list Detail.t) : string :=
  join_plus (flat_map channel_label entries).

(** The loop over a list of raw lines, then the final finalize and the
    derived strings. *)
Definition parse_lines (lines : list string) : Info.t :=
  let st := fold_left step lines pstate0 in
  let adv := _finalize_entry (current_entry st) (advanced_entries st) in
  let i := iset_advanced (info st) adv in
  let i := iset_bands i (_build_band_display adv) in
  iset_channels i (_build_channel_display adv).

Definition _parse_debug_output (text : string) : Info.t := parse_lines (splitlines text).

End Debug.

(* ------------------------------------------------------------------ *)
(** ** [_mask_password] *)

Module Mask.

Import Py.
Local Open Scope string_scope.

Fixpoint stars (n : nat) : string :=
  match n with O => EmptyString | S n' => String "*"%char (stars n') end.

(** [s[-1]] of a non-empty string. *)
Fixpoint last_char (c : ascii) (s : string) : ascii :=
  match s with EmptyString => c | String d s' => last_char d s' end.

Definition _mask_password (password : string) : string :=
  match password with
  | EmptyString => "<vuoto>"
  | String c0 rest =>
      let n := String.length password in
      if (n <=? 4)%nat then stars n
      else str1 c0 ++ "***" ++ str1 (last_char c0 rest) ++ " (len="
           ++ NilEmpty.string_of_uint (Nat.to_uint n) ++ ")"
  end.

End Mask.

(* ------------------------------------------------------------------ *)
(** ** [_parse_ati_output] *)

Module Ati.

Import Py.
Local Open Scope string_scope.

(** [ch.isprintable()] on Latin-1: not a control character, not the
    no-break space (Zs) and not the soft hyphen (Cf). *)
Definition is_printable (c : ascii) : bool :=
  let n := code c in
  ((32 <=? n) && (n <=? 126))%nat || ((161 <=? n) && (n <=? 255) && negb (n =? 173))%nat.

Definition tab : ascii := "009"%char.

(** [''.join(ch for ch in raw_line if ch.isprintable() or ch in '\t')] *)
Fixpoint sanitize (s : string) : string :=
  match s with
  | EmptyString => EmptyString
  | String c s' => if is_printable c || ceq c tab then String c (sanitize s') else sanitize s'
  end.

Fixpoint map_str (f : ascii -> ascii) (s : string) : string :=
  match s with
  | EmptyString => EmptyString
  | String c s' => String (f c) (map_str f s')
  end.

(** ASCII upper-casing; no Latin-1 text other than an ASCII-case variant of
    [OK] upper-cases to [OK] in Python. *)
Definition upper (c : ascii) : ascii :=
  let n := code c in
  if ((97 <=? n) && (n <=? 122))%nat then ascii_of_nat (n - 32) else c.

Fixpoint take (n : nat) (s : string) : string :=
  match n, s with
  | O, _ => EmptyString
  | S n', String c s' => String c (take n' s')
  | S _, EmptyString => EmptyString
  end.

(** The alternatives of the [key] group, in order. *)
Definition keys : list string := ["manufacturer"; "model"; "revision"; "svn"; "imei"; "gcap"; "mpn"].

Definition parsed0 : gmap string string := list_to_map (map (fun k => (k, "-")) keys).

Definition is_plus (c : ascii) : bool := ceq c "+"%char.

(** One alternative of the [key] group after the optional plus [pfx]:
    the groups [key] and [value] (before [.strip()]).  Past the keyword,
    [\s*[:=]?\s*] and [.*] take the rest of the line, so the first attempt
    of the greedy quantifiers succeeds. *)
Fixpoint match_kw (r pfx : string) (ks : list string) : option (string * string) :=
  match ks with
  | [] => None
  | kw :: ks' =>
      if startswith_ci kw r then
        let grp := pfx ++ take (String.length kw) r in
        let rest := drop_while is_space (drop (String.length kw) r) in
        let rest := match rest with
                    | String c t => if ceq c ":"%char || ceq c "="%char then t else rest
                    | EmptyString => rest
                    end in
        Some (grp, drop_while is_space rest)
      else match_kw r pfx ks'
  end.

(** [re.match] of the ATI line pattern (IGNORECASE): an optional plus,
    one of the keywords (the [key] group), then optional blanks, an optional
    colon or equals sign, optional blanks and the rest of the line (the
    [value] group).  When the line starts with a plus that no keyword
    follows, backtracking over the optional plus cannot match a keyword at
    the plus itself. *)
Definition ati_regex (line : string) : option (string * string) :=
  match line with
  | String c t => if is_plus c then match_kw t (str1 c) keys else match_kw line EmptyString keys
  | EmptyString => match_kw line EmptyString keys
  end.

(** [s.split(":", 1)[0]] *)
Fixpoint before_colon (s : string) : string :=
  match s with
  | EmptyString => EmptyString
  | String c s' => if ceq c ":"%char then EmptyString else String c (before_colon s')
  end.

Fixpoint has_colon (s : string) : bool :=
  match s with
  | EmptyString => false
  | String c s' => ceq c ":"%char || has_colon s'
  end.

(** [v.strip() or "-"] *)
Definition or_dash (v : string) : string :=
  let v := strip v in if String.eqb v EmptyString then "-" else v.

(** The loop body on one raw line.  Keys are lower-cased on ASCII only:
    no non-ASCII Latin-1 letter lower-cases to an ASCII one, so membership
    in the dict, whose keys are ASCII, is as in Python. *)
Definition ati_step (parsed : gmap string string) (raw_line : string) : gmap string string :=
  let line := strip (sanitize raw_line) in
  if String.eqb line EmptyString || String.eqb (map_str upper line) "OK" then parsed else
  match ati_regex line with
  | Some (key, value) => <[map_str lower (strip (drop_while is_plus key)) := or_dash value]> parsed
  | None =>
      if negb (has_colon line) then parsed else
      let normalized_key := map_str lower (drop_while is_plus (strip (before_colon line))) in
      match parsed !! normalized_key with
      | Some _ => <[normalized_key := or_dash (after_colon line)]> parsed
      | None => parsed
      end
  end.

Definition _parse_ati_output (text : string) : gmap string string :=
  fold_left ati_step (splitlines text) parsed0.

End Ati.

(* ------------------------------------------------------------------ *)
(** ** The [/connect] and [/disconnect] handlers and the operator line of
    [/signals] *)

Module App.

Import Py.
Local Open Scope string_scope.

(** A parsed JSON value (finite numbers; objects as their key/value pairs
    in source order). *)
#[warnings="-register-all"]
Inductive json :=
  | JNull
  | JBool (b : bool)
  | JNum (q : Q)
  | JStr (s : string)
  | JArr (l : list json)
  | JObj (kvs : list (string * json)).

(** [data.get(k)] on the dict [json.loads] builds: the last pair with
    that key wins. *)
Definition dget (kvs : list (string * json)) (k : string) : option json :=
  fold_left (fun acc kv => if String.eqb kv.1 k then Some kv.2 else acc) kvs None.

Definition dict_len (kvs : list (string * json)) : nat :=
  length (List.nodup string_dec (map fst kvs)).

(** [not v] *)
Definition falsy (v : option json) : bool :=
  match v with
  | None | Some JNull => true
  | Some (JBool b) => negb b
  | Some (JNum q) => Qeq_bool q 0
  | Some (JStr s) => String.eqb s EmptyString
  | Some (JArr l) => match l with [] => true | _ => false end
  | Some (JObj kvs) => match kvs with [] => true | _ => false end
  end.

(** [v.strip()]; [None] where a non-string raises [AttributeError]. *)
Definition strip_json (v : option json) : option string :=
  match v with Some (JStr s) => Some (strip s) | _ => None end.

(** The digits of [int(s)] after the sign: ASCII digits, single
    underscores allowed between two digits. *)
Fixpoint int_digits (s : string) (acc : Z) (prev_digit : bool) : option Z :=
  match s with
  | EmptyString => if prev_digit then Some acc else None
  | String c s' =>
      if is_digit c then int_digits s' (10 * acc + (Z.of_nat (code c) - 48))%Z true
      else if ceq c "_"%char && prev_digit then int_digits s' acc false
      else None
  end.

(** [int(s)] on a string: surrounding whitespace, an optional sign, the
    digits; [None] where it raises [ValueError]. *)
Definition int_str (s : string) : option Z :=
  let s := strip s in
  match s with
  | String c t =>
      if ceq c "-"%char then option_map Z.opp (int_digits t 0 false)
      else if ceq c "+"%char then int_digits t 0 false
      else int_digits s 0 false
  | EmptyString => None
  end.

(** [int(data.get("port", 22))]; [None] where it raises. *)
Definition port_of (v : option json) : option Z :=
  match v with
  | None => Some 22%Z
  | Some (JBool b) => Some (if b then 1%Z else 0%Z)
  | Some (JNum q) => Some (Z.quot (Qnum q) (Zpos (Qden q)))
  | Some (JStr s) => int_str s
  | Some (JNull | JArr _ | JObj _) => None
  end.

(** Whether the logging call [_mask_password(password)] raises on a
    truthy password: [len()] of a number or boolean, or [password[0]] on a
    dict of more than four keys. *)
Definition mask_raises (v : option json) : bool :=
  match v with
  | Some (JStr _) | Some (JArr _) => false
  | Some (JObj kvs) => (4 <? dict_len kvs)%nat
  | _ => true
  end.

Definition required : list string := ["host"; "username"; "password"; "interface"].

(** Bodies of the [/connect] responses; the text of a caught exception,
    appended to the error message, is not modelled; [CCrash] is the 500
    page of an uncaught exception. *)
Inductive cbody :=
  | CError (msg : string)
  | CToken (token preview : string)
  | CCrash.

(** The SSH connection attempt [client.connect(...)]. *)
Definition ssh_connector := nat -> string -> Z -> string -> option json -> result unit.

(** [/connect].  [c] is the handle of the new [paramiko.SSHClient()],
    [tok] the value of [secrets.token_urlsafe(32)], and [now] and [now2]
    the [time.time()] readings of [sessions.add] and [sessions.cleanup]. *)
Definition connect (ssh : ssh_connector) (run : Registry.transport) (c : nat) (tok : string)
  (now now2 : Z) (st : Registry.store) (body : option json) : Registry.store * (Z * cbody) :=
  match body with
  | Some (JObj data) =>
      let missing := List.filter (fun key => falsy (dget data key)) required in
      match missing with
      | _ :: _ => (st, (400%Z, CError ("Campi mancanti: " ++ String.concat ", " missing)))
      | [] =>
          match strip_json (dget data "host"), strip_json (dget data "username") with
          | Some host, Some username =>
              let password := dget data "password" in
              match strip_json (dget data "interface"), port_of (dget data "port") with
              | Some interface, Some port =>
                  if mask_raises password then (st, (500%Z, CCrash)) else
                  match ssh c host port username password with
                  | Raise _ => (st, (502%Z, CError "Connessione SSH fallita: "))
                  | Ok _ =>
                      match run c (Wrapper._build_ros_at_chat_cmd interface "ATI") with
                      | Raise _ =>
                          ({| Registry.sessions := Registry.sessions st;
                              Registry.closed := c :: Registry.closed st |},
                           (500%Z, CError "Test at-chat fallito: "))
                      | Ok (out, err) =>
                          let preview := out ++ (if Registry.nonempty err
                                                 then String lf EmptyString ++ err else EmptyString) in
                          let preview := if String.eqb (strip preview) EmptyString
                                         then "(nessun output)" else preview in
                          let session := {| Registry.token := tok; Registry.client := c;
                                            Registry.interface := interface; Registry.host := host;
                                            Registry.username := username; Registry.port := port;
                                            Registry.created_at := now |} in
                          let st := Registry.add st session in
                          let st := Registry.cleanup now2 1800 st in
                          (st, (200%Z, CToken tok preview))
                      end
                  end
              | _, _ => (st, (500%Z, CCrash))
              end
          | _, _ => (st, (500%Z, CCrash))
          end
      end
  | _ => (st, (400%Z, CError "JSON non valido"))
  end.

(** [/disconnect] and its status code: a body that is not JSON is Flask's
    400; [data.get] on a non-object and [token[:10] + "..."] on a truthy
    non-string raise (500). *)
Definition disconnect (st : Registry.store) (body : option json) : Registry.store * Z :=
  match body with
  | None => (st, 400%Z)
  | Some (JObj data) =>
      let token := dget data "token" in
      if falsy token then (st, 200%Z) else
      match token with
      | Some (JStr t) => (Registry.remove st t, 200%Z)
      | _ => (st, 500%Z)
      end
  | Some _ => (st, 500%Z)
  end.

(** [info["operator"]] of [/signals]:
    [ati.get("manufacturer", "") + (" " + ati.get("model", "") if ati.get("model") else "")]. *)
Definition operator_of (ati : gmap string string) : string :=
  default EmptyString (ati !! "manufacturer")
  ++ (if Registry.nonempty (default EmptyString (ati !! "model"))
      then " " ++ default EmptyString (ati !! "model") else EmptyString).

End App.

(* ================================================================== *)
(** * Concrete inputs and specification-side definitions *)

Section Inputs.

Import Py Wrapper Debug.
Local Open Scope string_scope.

(** The two escaping passes of the wrapper. *)
Definition escape (y : string) : string :=
  replace_char dq (str1 bsl ++ str1 dq) (replace_char bsl (str1 bsl ++ str1 bsl) y).

(** The AT command [AT^TEST="x"] of the spec's example. *)
Definition at_test_x : string :=
  ("AT^TEST=" ++ Py.str1 Py.dq ++ "x" ++ Py.str1 Py.dq)%string.

(** An AT command holding a double quote and the interface name. *)
Definition at_quote_lte1 : string :=
  ("AT" ++ Py.str1 Py.dq ++ "lte1" ++ Py.str1 Py.dq)%string.

Fixpoint zeros (n : nat) : string :=
  match n with O => EmptyString | S n' => String "0"%char (zeros n') end.

(** A [TSENS] reading of 10^400 degrees. *)
Definition temp_huge : string := ("TSENS: 1" ++ zeros 400 ++ "C")%string.

Definition sess0 : Registry.SSHSession :=
  {| Registry.token := "tok"; Registry.client := 1%nat; Registry.interface := "lte1";
     Registry.host := "192.168.88.1"; Registry.username := "admin"; Registry.port := 22%Z;
     Registry.created_at := 0%Z |}.

Definition store0 : Registry.store :=
  {| Registry.sessions := {[ "tok" := sess0 ]}; Registry.closed := [] |}.

(** A transport whose every command fails (timeout, severed connection). *)
Definition failing_transport : Registry.transport := fun _ _ => Raise TransportError.

Definition nl : string := str1 lf.

Definition ex7 : string :=
  "pcell: lte_band:3 lte_band_width:20MHz" ++ nl ++ "channel:1300 pci:55" ++ nl
  ++ "lte_rsrp:-95 rsrq:-10".

Definition E7 : Entry.t :=
  {| Entry.technology := LTE; Entry.role := Primary; Entry.ca_index := None;
     Entry.band := Some "3"; Entry.bandwidth := Some "20MHz";
     Entry.channel := Some "1300"; Entry.pci := Some "55";
     Entry.rsrp := Some (-95)%Q; Entry.rsrq := Some (-10)%Q;
     Entry.rssi := None; Entry.snr := None;
     Entry.antennas := []; Entry.rx_diversity := None; Entry.tx_power := None |}.

Definition mcc_mnc_line (line : string) : bool :=
  is_some (search ["mcc:"] false is_digit line) && is_some (search ["mnc:"] false is_digit line).

(** The normalized [line] reaches the generic matches at the end of the
    loop body: it is no [rat:] line, no MCC/MNC line, no pending-buffer
    line, no header line, and no branch of the open entry [continue]s. *)
Definition reaches_generic (st : pstate) (line : string) : bool :=
  negb (startswith_ci "rat:" line) && negb (mcc_mnc_line line)
  && negb (startswith "lte_ant_rsrp" line) && negb (startswith "lte_tx_pwr" line)
  && negb (startswith "nr_tx_pwr" line) && negb (startswith "pcell:" line)
  && negb (startswith "scell:" line) && negb (startswith "nr_band:" line)
  && match current_entry st with
     | Some e => negb (is_some (entry_line e (info st) line))
     | None => true
     end.

Definition st_tx23 : pstate := step pstate0 "lte_tx_pwr:23".

(** The display string the parser derives from a value. *)
Definition vdisp (u : string) (v : option Q) : disp :=
  match v with Some y => DNum y u | None => DText "-" end.

Definition disp_ok (i : Info.t) : Prop :=
  Info.rsrp i = vdisp "dBm" (Info.rsrp_value i) /\ Info.rsrq i = vdisp "dB" (Info.rsrq_value i)
  /\ Info.snr i = vdisp "dB" (Info.snr_value i) /\ Info.rssi i = vdisp "dBm" (Info.rssi_value i).

(** The numeric searches the parser runs on a line, as (alternatives,
    whitespace allowed after the key): those of the open entry's metric
    lines, then the four generic ones. *)
Definition metric_pats : list (list string * bool) :=
  [(["lte_rsrp:"], false); (["rsrq:"], false); (["lte_rssi:"], false); (["lte_snr:"], false);
   (["nr_rsrp:"], false); (["nr_rsrq:"], false); (["nr_rssi:"], false); (["nr_snr:"], false);
   (["lte_rsrp:"; "nr_rsrp:"], true); (["rsrq:"; "nr_rsrq:"], true);
   (["lte_snr:"; "nr_snr:"], true); (["lte_rssi:"], false)].

(** The search finds no [[-\d.]+] token, or one that is not a float. *)
Definition tok_malformed (alts : list string) (ws : bool) (line : string) : bool :=
  match search alts ws num_cls line with
  | Some tok => negb (is_some (_to_float tok))
  | None => true
  end.

(** Every numeric token of the line after a metric key is missing or
    malformed. *)
Definition malformed_numbers (line : string) : bool :=
  forallb (fun '(alts, ws) => tok_malformed alts ws line) metric_pats.

(** The four top-level metrics: displays and values. *)
Definition metrics_of (i : Info.t) :=
  (Info.rsrp i, Info.rsrq i, Info.snr i, Info.rssi i,
   Info.rsrp_value i, Info.rsrq_value i, Info.snr_value i, Info.rssi_value i).

(** An entry with none of the four metrics. *)
Definition no_metrics (e : Entry.t) : Prop :=
  Entry.rsrp e = None /\ Entry.rsrq e = None /\ Entry.rssi e = None /\ Entry.snr e = None.

(** Each metric of [e'] is absent or the one of [e]. *)
Definition entry_fallback (e' e : Entry.t) : Prop :=
  (Entry.rsrp e' = None \/ Entry.rsrp e' = Entry.rsrp e)
  /\ (Entry.rsrq e' = None \/ Entry.rsrq e' = Entry.rsrq e)
  /\ (Entry.rssi e' = None \/ Entry.rssi e' = Entry.rssi e)
  /\ (Entry.snr e' = None \/ Entry.snr e' = Entry.snr e).

End Inputs.

(* ------------------------------------------------------------------ *)
(** ** Observations on the parser's state *)

Section Observations.

Import Py Debug.
Local Open Scope string_scope.

(** The lines the loop body sees: [normalize] of each raw line, the
    skipped ones left out. *)
Fixpoint normalized_lines (ls : list string) : list string :=
  match ls with
  | [] => []
  | l :: ls' => match normalize l with
                | Some x => x :: normalized_lines ls'
                | None => normalized_lines ls'
                end
  end.

(** A card header: a [pcell:], [scell:] or [nr_band:] line that does not
    also carry an MCC/MNC pair. *)
Definition header_line (line : string) : bool :=
  negb (mcc_mnc_line line)
  && (startswith "pcell:" line || startswith "scell:" line || startswith "nr_band:" line).

(** The cards the state will hold once the open entry is finalized. *)
Definition card_count (st : pstate) : nat :=
  length (_finalize_entry (current_entry st) (advanced_entries st)).

(** Top-level fields that keep their first value: once the channel or the
    PCI is not ["-"], or a metric's display is not ["-"], it no longer
    changes. *)
Definition stable_info (i i' : Info.t) : Prop :=
  (Info.channel i <> "-" -> Info.channel i' = Info.channel i)
  /\ (Info.pci i <> "-" -> Info.pci i' = Info.pci i)
  /\ (disp_is (Info.rsrp i) "-" = false ->
        Info.rsrp i' = Info.rsrp i /\ Info.rsrp_value i' = Info.rsrp_value i)
  /\ (disp_is (Info.rsrq i) "-" = false ->
        Info.rsrq i' = Info.rsrq i /\ Info.rsrq_value i' = Info.rsrq_value i)
  /\ (disp_is (Info.snr i) "-" = false ->
        Info.snr i' = Info.snr i /\ Info.snr_value i' = Info.snr_value i)
  /\ (disp_is (Info.rssi i) "-" = false ->
        Info.rssi i' = Info.rssi i /\ Info.rssi_value i' = Info.rssi_value i).

End Observations.

Section Observations2.

Import Py Debug.
Local Open Scope string_scope.

(** The band a card contributes to the bands summary. *)
Definition band_norm (d : Detail.t) : string :=
  nr_prefixed (Detail.technology d) (strip (or_str (Detail.band d) EmptyString)).

End Observations2.

Section Observations3.

Import Py.
Local Open Scope string_scope.

(** The order of the assessment labels, from weak to excellent. *)
Definition assess_rank (s : string) : nat :=
  if String.eqb s "Ottimo" then 3
  else if String.eqb s "Buono" then 2
  else if String.eqb s "Discreto" then 1
  else 0.

End Observations3.

Section Observations4.

Local Open Scope string_scope.

(** An SSH connection that succeeds, and a transport that answers every
    command with the text [Quectel]. *)
Definition ssh_ok : App.ssh_connector := fun _ _ _ _ _ => Ok tt.
Definition run_quectel : Registry.transport := fun _ _ => Ok ("Quectel", EmptyString).

(** A body with only the host. *)
Definition host_only : list (string * App.json) := [("host", App.JStr "10.0.0.1")].

End Observations4.

Section Observations5.

Import Py Ati.
Local Open Scope string_scope.

(** A keyword whose characters are lowercase and neither whitespace nor
    a plus sign. *)
Definition kw_chars_ok (kw : string) : bool :=
  forallb (fun a => Ascii.eqb (lower a) a && negb (is_space a) && negb (is_plus a))
    (list_ascii_of_string kw).

(** The shape of an ATI dict: exactly the seven keys, no empty value. *)
Definition ati_inv (m : gmap string string) : Prop :=
  (forall k, is_Some (m !! k) <-> In k keys) /\ (forall k v, m !! k = Some v -> v <> EmptyString).

End Observations5.

(* ================================================================== *)
(** * Properties *)

(* ------------------------------------------------------------------ *)
(** ** Command wrapper *)

Section WrapperProofs.

Import Py Wrapper.
Local Open Scope string_scope.

Lemma sapp_assoc (a b c : string) : (a ++ b) ++ c = a ++ (b ++ c).
Proof. induction a as [|x a IH]; cbn; congruence. Qed.

Lemma las_app (a b : string) :
  list_ascii_of_string (a ++ b) = app (list_ascii_of_string a) (list_ascii_of_string b).
Proof. induction a as [|x a IH]; cbn; congruence. Qed.

Lemma replace_char_app (c : ascii) (r a b : string) :
  replace_char c r (a ++ b) = replace_char c r a ++ replace_char c r b.
Proof.
  induction a as [|d a IH]; cbn; [reflexivity|].
  destruct (ceq c d); rewrite IH; [rewrite sapp_assoc|]; reflexivity.
Qed.

Lemma escape_read (y rest : string) :
  read_quoted (escape y ++ String dq rest) = Some (y, rest).
Proof.
  induction y as [|c y IH]; [reflexivity|].
  unfold escape in *. cbn in IH. cbn [replace_char].
  destruct (ceq bsl c) eqn:E1.
  - apply Ascii.eqb_eq in E1; subst c.
    cbn. rewrite IH. reflexivity.
  - cbn [replace_char]. destruct (ceq dq c) eqn:E2.
    + apply Ascii.eqb_eq in E2; subst c. cbn. rewrite IH. reflexivity.
    + cbn. unfold ceq in *. rewrite Ascii.eqb_sym, E2, Ascii.eqb_sym, E1. rewrite IH. reflexivity.
Qed.

Lemma replace_char_notin (c : ascii) (r s : string) (x : ascii) :
  In x (list_ascii_of_string (replace_char c r s)) ->
  x = c -> ~ In c (list_ascii_of_string r) -> False.
Proof.
  induction s as [|d s IH]; cbn; [tauto|].
  destruct (ceq c d) eqn:E.
  - rewrite las_app, in_app_iff. intros [H|H] -> Hr; [tauto|eauto].
  - cbn. intros [H|H] -> Hr; [|eauto].
    subst d. unfold ceq in E. rewrite Ascii.eqb_refl in E. discriminate.
Qed.

Lemma replace_char_keeps_absent (c : ascii) (r s : string) (x : ascii) :
  In x (list_ascii_of_string (replace_char c r s)) ->
  ~ In x (list_ascii_of_string r) -> In x (list_ascii_of_string s).
Proof.
  induction s as [|d s IH]; cbn; [tauto|].
  destruct (ceq c d).
  - rewrite las_app, in_app_iff. intros [H|H] Hr; [tauto|right; eauto].
  - cbn. intros [H|H] Hr; [left; exact H|right; eauto].
Qed.

Lemma startswith_app_dq (p s : string) :
  ~ In dq (list_ascii_of_string p) ->
  startswith p (s ++ str1 dq) = startswith p s.
Proof.
  revert s. induction p as [|a p IH]; intros s Hp; [destruct s; reflexivity|].
  destruct s as [|b s]; cbn.
  - destruct (ceq a dq) eqn:E; [|reflexivity].
    apply Ascii.eqb_eq in E. subst a. exfalso. apply Hp. now left.
  - rewrite IH; [reflexivity|]. intro H. apply Hp. now right.
Qed.

Lemma occurrences_app_dq (s : string) :
  occurrences "lte1" (s ++ str1 dq) = occurrences "lte1" s.
Proof.
  induction s as [|c s IH]; [reflexivity|].
  change (String c s ++ str1 dq) with (String c (s ++ str1 dq)).
  cbn [occurrences]. rewrite IH.
  change (startswith "lte1" (String c (s ++ str1 dq))) with (startswith "lte1" (String c s ++ str1 dq)).
  rewrite startswith_app_dq; [reflexivity|]. cbn. intuition discriminate.
Qed.

End WrapperProofs.

(** C9: the interface name is embedded verbatim: the produced string is the
    fixed prefix, the interface exactly as given, [ input=], and the
    escaped AT command between double quotes, that last part depending on
    the AT command alone; e.g. an interface holding spaces, quotes and a
    semicolon passes through unchanged. *)
Theorem build_cmd_interface_verbatim :
  (forall interface at_cmd : string,
     exists q : string,
       forall interface' : string,
         Wrapper._build_ros_at_chat_cmd interface' at_cmd =
         ("/interface lte at-chat " ++ interface' ++ " input=" ++ Py.str1 Py.dq ++ q ++ Py.str1 Py.dq)%string
       /\ q = Wrapper.clean_at_cmd at_cmd)
  /\ Wrapper._build_ros_at_chat_cmd ("a " ++ Py.str1 Py.dq ++ "b" ++ Py.str1 Py.dq ++ "; x")%string "ATI"
     = ("/interface lte at-chat a " ++ Py.str1 Py.dq ++ "b" ++ Py.str1 Py.dq ++ "; x input="
        ++ Py.str1 Py.dq ++ "ATI" ++ Py.str1 Py.dq)%string.
Proof.
  split.
  - intros interface at_cmd. exists (Wrapper.clean_at_cmd at_cmd).
    intros interface'. split; reflexivity.
  - vm_compute. reflexivity.
Qed.

Section WrapperClaims.

Import Py Wrapper.
Local Open Scope string_scope.

Lemma clean_is_escape (at_cmd : string) :
  clean_at_cmd at_cmd = escape (replace_char lf " " (replace_char cr EmptyString (strip at_cmd))).
Proof. reflexivity. Qed.

Lemma clean_no_cr_lf (at_cmd : string) :
  ~ In cr (list_ascii_of_string (clean_at_cmd at_cmd))
  /\ ~ In lf (list_ascii_of_string (clean_at_cmd at_cmd)).
Proof.
  rewrite clean_is_escape. unfold escape.
  assert (Hq : forall c, c = cr \/ c = lf -> ~ In c (list_ascii_of_string (str1 bsl ++ str1 dq))).
  { intros c [-> | ->]; cbn; intuition discriminate. }
  assert (Hb : forall c, c = cr \/ c = lf -> ~ In c (list_ascii_of_string (str1 bsl ++ str1 bsl))).
  { intros c [-> | ->]; cbn; intuition discriminate. }
  split; intro H.
  - apply replace_char_keeps_absent in H; [|apply Hq; auto].
    apply replace_char_keeps_absent in H; [|apply Hb; auto].
    apply replace_char_keeps_absent in H; [|cbn; intuition discriminate].
    eapply replace_char_notin; [exact H | reflexivity | cbn; tauto].
  - apply replace_char_keeps_absent in H; [|apply Hq; auto].
    apply replace_char_keeps_absent in H; [|apply Hb; auto].
    eapply replace_char_notin; [exact H | reflexivity | cbn; intuition discriminate].
Qed.

Lemma occurrences_build_lte1 (at_cmd : string) :
  occurrences "lte1" (_build_ros_at_chat_cmd "lte1" at_cmd)
  = S (occurrences "lte1" (clean_at_cmd at_cmd)).
Proof.
  unfold _build_ros_at_chat_cmd.
  generalize (clean_at_cmd at_cmd) as q. intro q.
  cbn. rewrite occurrences_app_dq. reflexivity.
Qed.

End WrapperClaims.

(** C5 (counterexample): for interface [lte1] and the AT command
    [AT"lte1"], which contains a double quote, the interface name occurs
    twice in the produced vendor string, not exactly once. *)
Lemma build_cmd_lte1_twice :
  In Py.dq (list_ascii_of_string at_quote_lte1)
  /\ Py.occurrences "lte1" (Wrapper._build_ros_at_chat_cmd "lte1" at_quote_lte1) = 2%nat.
Proof. split; [cbn; tauto | vm_compute; reflexivity]. Qed.

(** C5 (amended): the wrapper strips the AT command, removes carriage
    returns, turns each newline into one space, escapes backslashes and
    double quotes, and wraps the result in the fixed template after the
    interface name.  The escaped text holds no CR or LF, and the remote
    shell's quoted-string reading gives back exactly the normalized command
    and stops at the closing quote.  For interface [lte1] the name occurs
    once in the interface slot plus once per occurrence inside the escaped
    command, hence exactly once when the command does not contain it, as
    for [AT^TEST="x"], whose quotes come out escaped. *)
Theorem build_cmd_escapes_and_wraps :
  (forall interface at_cmd rest : string,
     let x := Py.replace_char Py.lf " " (Py.replace_char Py.cr EmptyString (Py.strip at_cmd)) in
     Wrapper._build_ros_at_chat_cmd interface at_cmd =
       ("/interface lte at-chat " ++ interface ++ " input=" ++ Py.str1 Py.dq
        ++ Wrapper.clean_at_cmd at_cmd ++ Py.str1 Py.dq)%string
     /\ Wrapper.read_quoted (Wrapper.clean_at_cmd at_cmd ++ String Py.dq rest)%string = Some (x, rest)
     /\ ~ In Py.cr (list_ascii_of_string (Wrapper.clean_at_cmd at_cmd))
     /\ ~ In Py.lf (list_ascii_of_string (Wrapper.clean_at_cmd at_cmd))
     /\ Py.occurrences "lte1" (Wrapper._build_ros_at_chat_cmd "lte1" at_cmd)
        = S (Py.occurrences "lte1" (Wrapper.clean_at_cmd at_cmd)))
  /\ Wrapper._build_ros_at_chat_cmd "lte1" at_test_x
     = ("/interface lte at-chat lte1 input=" ++ Py.str1 Py.dq ++ "AT^TEST="
        ++ Py.str1 Py.bsl ++ Py.str1 Py.dq ++ "x" ++ Py.str1 Py.bsl ++ Py.str1 Py.dq
        ++ Py.str1 Py.dq)%string
  /\ Py.occurrences "lte1" (Wrapper._build_ros_at_chat_cmd "lte1" at_test_x) = 1%nat.
Proof.
  split; [|split; vm_compute; reflexivity].
  intros interface at_cmd rest x.
  split; [reflexivity|].
  split; [rewrite clean_is_escape; apply escape_read|].
  destruct (clean_no_cr_lf at_cmd) as [H1 H2].
  split; [exact H1|]. split; [exact H2|].
  apply occurrences_build_lte1.
Qed.

(* ------------------------------------------------------------------ *)
(** ** Temperature parser *)

(** C10 (code bug): on the text [TSENS: 1000...0C] (a one followed by 400
    zeros) the temperature parser raises [OverflowError] from the float
    division of the mean instead of returning a value. *)
Lemma temp_parser_raises_on_huge_reading :
  Temp._parse_temp_output temp_huge = Raise OverflowError.
Proof. vm_compute. reflexivity. Qed.

(* ------------------------------------------------------------------ *)
(** ** Session registry *)

Section RegistryProofs.

Import Registry.

Lemma remove_sessions (st : store) (t : string) :
  sessions (remove st t) = delete t (sessions st).
Proof.
  unfold remove. destruct (sessions st !! t) eqn:E; [reflexivity|].
  cbn. symmetry. apply delete_id. exact E.
Qed.

Lemma fold_remove_lookup (ts : list string) (st : store) (tok : string) :
  sessions (fold_left remove ts st) !! tok =
  if existsb (String.eqb tok) ts then None else sessions st !! tok.
Proof.
  revert st. induction ts as [|t ts IH]; intros st; [reflexivity|].
  cbn [fold_left existsb]. rewrite IH, remove_sessions.
  destruct (String.eqb tok t) eqn:E; cbn.
  - apply String.eqb_eq in E. subst t. rewrite lookup_delete_eq.
    destruct (existsb _ ts); reflexivity.
  - apply String.eqb_neq in E. rewrite lookup_delete_ne by congruence. reflexivity.
Qed.

Lemma in_to_remove (m : gmap string SSHSession) (cutoff : Z) (tok : string) :
  existsb (String.eqb tok)
    (map fst (List.filter (fun ts : string * SSHSession => (created_at ts.2 <? cutoff)%Z)
                          (map_to_list m)))
  = match m !! tok with Some s => (created_at s <? cutoff)%Z | None => false end.
Proof.
  destruct (existsb _ _) eqn:E.
  - apply existsb_exists in E as [t [Hin Ht]].
    apply String.eqb_eq in Ht. subst t.
    apply in_map_iff in Hin as [[t s] [Ht Hin]]. cbn in Ht. subst t.
    apply filter_In in Hin as [Hin Hlt].
    apply list_elem_of_In, elem_of_map_to_list in Hin. rewrite Hin. symmetry. exact Hlt.
  - destruct (m !! tok) as [s|] eqn:Hs; [|reflexivity].
    destruct (created_at s <? cutoff)%Z eqn:Hlt; [|reflexivity].
    exfalso. assert (Hin : In (tok, s) (map_to_list m)).
    { apply list_elem_of_In, elem_of_map_to_list. exact Hs. }
    assert (In tok (map fst (List.filter (fun ts : string * SSHSession => (created_at ts.2 <? cutoff)%Z)
                                         (map_to_list m)))).
    { apply in_map_iff. exists (tok, s). split; [reflexivity|]. apply filter_In. auto. }
    assert (existsb (String.eqb tok) (map fst (List.filter (fun ts : string * SSHSession => (created_at ts.2 <? cutoff)%Z)
                                         (map_to_list m))) = true) as E'.
    { apply existsb_exists. exists tok. split; [assumption|apply String.eqb_refl]. }
    congruence.
Qed.

End RegistryProofs.

(** C6: [cleanup now max_age] removes exactly the sessions whose age
    [now - created_at] is strictly greater than [max_age] and leaves every
    other session as it was; a session whose age equals [max_age] is kept. *)
Theorem cleanup_exact :
  forall (now max_age : Z) (st : Registry.store) (tok : string),
    Registry.sessions (Registry.cleanup now max_age st) !! tok =
    match Registry.sessions st !! tok with
    | Some s => if (now - Registry.created_at s >? max_age)%Z then None else Some s
    | None => None
    end
  /\ (forall s, Registry.sessions st !! tok = Some s ->
        (now - Registry.created_at s = max_age)%Z ->
        Registry.sessions (Registry.cleanup now max_age st) !! tok = Some s).
Proof.
  intros now max_age st tok.
  assert (H : Registry.sessions (Registry.cleanup now max_age st) !! tok =
    match Registry.sessions st !! tok with
    | Some s => if (now - Registry.created_at s >? max_age)%Z then None else Some s
    | None => None
    end).
  { unfold Registry.cleanup. rewrite fold_remove_lookup, in_to_remove.
    destruct (Registry.sessions st !! tok) as [s|]; [|reflexivity].
    destruct (Registry.created_at s <? now - max_age)%Z eqn:E1;
    destruct (now - Registry.created_at s >? max_age)%Z eqn:E2; try reflexivity;
    rewrite ?Z.ltb_lt, ?Z.ltb_ge, ?Z.gtb_lt, ?Z.gtb_ltb, ?Z.ltb_ge in *; lia. }
  split; [exact H|].
  intros s Hs Hage. rewrite H, Hs.
  replace (now - Registry.created_at s >? max_age)%Z with false; [reflexivity|].
  symmetry. rewrite Z.gtb_ltb. apply Z.ltb_ge. lia.
Qed.

(** C3 (code bug): with session [tok] live and every command failing,
    [/signals] answers 502 and leaves [tok] in the registry with its
    client open, while [/send] in the same situation removes it. *)
Lemma signals_keeps_failed_session :
  Registry.signals failing_transport store0 "tok" = (store0, (502%Z, Registry.BError))
  /\ Registry.get (fst (Registry.signals failing_transport store0 "tok")) "tok" = Some sess0
  /\ Registry.get (fst (Registry.send_command failing_transport store0 "tok" "ATI")) "tok" = None
  /\ snd (Registry.send_command failing_transport store0 "tok" "ATI") = (502%Z, Registry.BError).
Proof. vm_compute. repeat split; reflexivity. Qed.

(* ------------------------------------------------------------------ *)
(** ** Signal quality assessor *)

Section AssessProofs.

Variable F : Type.
Variable py_float : string -> option F.
Variable f_ge : F -> Z -> bool.
Variable f_truthy : F -> bool.

(** A float equal to zero compares like the int [0]. *)
Hypothesis falsy_ge : forall v k, f_truthy v = false -> f_ge v k = (0 >=? k)%Z.

(** C2 (code bug): the good rule reads [(rsrq_val or -40) >= -14], so an
    RSRQ that is absent, or present but falsy (a float equal to zero, which
    is [>= -14]), counts as -40: whatever the RSRP and SINR, such an RSRQ
    never yields ["Buono"] (good). *)
Theorem assess_falsy_rsrq_never_good (rsrp rsrq snr : string) :
  (Assess.conv F py_float "dB" rsrq = Some None
   \/ exists q, Assess.conv F py_float "dB" rsrq = Some (Some q) /\ f_truthy q = false) ->
  Assess._assess_signal F py_float f_ge f_truthy rsrp rsrq snr <> "Buono"
  /\ (forall q, Assess.conv F py_float "dB" rsrq = Some (Some q) -> f_ge q (-14) = true).
Proof.
  intros Hq.
  assert (Hr : forall q, Assess.conv F py_float "dB" rsrq = Some q ->
            Assess.num_ge F f_ge (Assess.py_or F f_truthy q (-40)) (-14) = false).
  { intros q E. destruct Hq as [Hq | (v & Hq & T)]; rewrite Hq in E; injection E as <-;
      cbn; [reflexivity|]. rewrite T. reflexivity. }
  split.
  - unfold Assess._assess_signal.
    destruct (Assess.conv F py_float "dB" rsrq) as [q|] eqn:Eq;
      destruct (Assess.conv F py_float "dBm" rsrp) as [[r|]|];
      destruct (Assess.conv F py_float "dB" snr) as [s|]; try discriminate.
    rewrite (Hr q eq_refl), andb_false_r.
    destruct (_ && _); [discriminate|]. destruct (f_ge r (-115)); discriminate.
  - intros q E. destruct Hq as [Hq | (v & Hq & T)]; rewrite Hq in E; [discriminate|].
    injection E as <-. rewrite falsy_ge by exact T. reflexivity.
Qed.

End AssessProofs.

Lemma qtruthy_falsy_ge : forall v k, Assess.qtruthy v = false -> Assess.qge v k = (0 >=? k)%Z.
Proof.
  intros v k H. unfold Assess.qtruthy, Assess.qge in *.
  apply negb_false_iff, Qeq_bool_iff in H.
  destruct (Qle_bool (inject_Z k) v) eqn:E; destruct (0 >=? k)%Z eqn:E2; auto; exfalso.
  - apply Qle_bool_iff in E. rewrite H in E. unfold Qle in E; cbn in E.
    rewrite Z.geb_leb, Z.leb_gt in E2. lia.
  - assert (Hle : (inject_Z k <= v)%Q).
    { rewrite H. unfold Qle; cbn. rewrite Z.geb_leb, Z.leb_le in E2. lia. }
    apply Qle_bool_iff in Hle. congruence.
Qed.

(** Witness of C2: RSRP [-100dBm] (at least -105, below -90), RSRQ
    [0dB] and no SINR give ["Discreto"] (fair), not good. *)
Lemma assess_falsy_rsrq_never_good_witness :
  Assess._assess_signal Q Num.py_float_dec Assess.qge Assess.qtruthy "-100dBm" "0dB" "-" = "Discreto"
  /\ Assess._assess_signal Q Num.py_float_dec Assess.qge Assess.qtruthy "-100dBm" "0dB" "-" <> "Buono".
Proof.
  split; [vm_compute; reflexivity|].
  apply (assess_falsy_rsrq_never_good Q Num.py_float_dec Assess.qge Assess.qtruthy
           qtruthy_falsy_ge "-100dBm" "0dB" "-").
  right. exists (0 # 1)%Q. split; vm_compute; reflexivity.
Defined.

(* ------------------------------------------------------------------ *)
(** ** Vendor text parser *)

Section DebugExamples.

Import Py Debug.
Local Open Scope string_scope.

(** C7: the three-line example yields exactly one finalized entry, the
    finalization of an LTE primary entry with band ["3"], bandwidth
    ["20MHz"], channel ["1300"], PCI ["55"], RSRP -95 and RSRQ -10, and the
    top-level band display is ["3"]. *)
Theorem parse_example_single_lte_entry :
  current_entry (fold_left step (splitlines ex7) pstate0) = Some E7
  /\ advanced_entries (fold_left step (splitlines ex7) pstate0) = []
  /\ Info.advanced (_parse_debug_output ex7) = [finalize_detail E7]
  /\ Info.bands (_parse_debug_output ex7) = "3".
Proof. vm_compute. repeat split; reflexivity. Qed.

End DebugExamples.

Section DebugTopLevel.

Import Py Debug.
Local Open Scope string_scope.

Lemma parse_lines_snoc (ls : list string) (l : string) :
  parse_lines (app ls [l]) =
  let st := step (fold_left step ls pstate0) l in
  let adv := _finalize_entry (current_entry st) (advanced_entries st) in
  iset_channels (iset_bands (iset_advanced (info st) adv) (_build_band_display adv))
    (_build_channel_display adv).
Proof. unfold parse_lines. rewrite fold_left_app. reflexivity. Qed.

Lemma step_some (st : pstate) (l line : string) :
  normalize l = Some line -> step st l = process_line st line.
Proof. intros H. unfold step. rewrite H. reflexivity. Qed.

Lemma some_inv {A} (x y : A) : Some x = Some y -> x = y.
Proof. congruence. Qed.

Lemma iset_rsrp_ids x v :
  Info.cell_id (iset_rsrp x v) = Info.cell_id x /\ Info.tac (iset_rsrp x v) = Info.tac x.
Proof. split; reflexivity. Qed.
Lemma iset_rsrq_ids x v :
  Info.cell_id (iset_rsrq x v) = Info.cell_id x /\ Info.tac (iset_rsrq x v) = Info.tac x.
Proof. split; reflexivity. Qed.
Lemma iset_snr_ids x v :
  Info.cell_id (iset_snr x v) = Info.cell_id x /\ Info.tac (iset_snr x v) = Info.tac x.
Proof. split; reflexivity. Qed.
Lemma iset_rssi_ids x v :
  Info.cell_id (iset_rssi x v) = Info.cell_id x /\ Info.tac (iset_rssi x v) = Info.tac x.
Proof. split; reflexivity. Qed.

Lemma seed_channel_ids i c :
  Info.cell_id (seed_channel i c) = Info.cell_id i /\ Info.tac (seed_channel i c) = Info.tac i.
Proof. unfold seed_channel. destruct (String.eqb _ _); split; reflexivity. Qed.
Lemma seed_pci_ids i c :
  Info.cell_id (seed_pci i c) = Info.cell_id i /\ Info.tac (seed_pci i c) = Info.tac i.
Proof. unfold seed_pci. destruct (String.eqb _ _); split; reflexivity. Qed.
Lemma seed_bands_ids i b :
  Info.cell_id (seed_bands i b) = Info.cell_id i /\ Info.tac (seed_bands i b) = Info.tac i.
Proof. unfold seed_bands. destruct (String.eqb _ _); split; reflexivity. Qed.

Lemma metric_upd_ids pat line setE getD setI e i e' i' :
  (forall x v, Info.cell_id (setI x v) = Info.cell_id x /\ Info.tac (setI x v) = Info.tac x) ->
  metric_upd pat line setE getD setI (e, i) = (e', i') ->
  Info.cell_id i' = Info.cell_id i /\ Info.tac i' = Info.tac i.
Proof.
  intros Hs. unfold metric_upd.
  destruct (search _ _ _ _); [destruct (disp_is _ _)|]; intros E; injection E as _ <-;
    [apply Hs|split; reflexivity|split; reflexivity].
Qed.

Lemma g_metric_ids alts ws getD setI line j :
  (forall x v, Info.cell_id (setI x v) = Info.cell_id x /\ Info.tac (setI x v) = Info.tac x) ->
  Info.cell_id (g_metric alts ws getD setI line j) = Info.cell_id j
  /\ Info.tac (g_metric alts ws getD setI line j) = Info.tac j.
Proof.
  intros Hs. unfold g_metric.
  destruct (search _ _ _ _); [destruct (disp_is _ _); [apply Hs|]|]; split; reflexivity.
Qed.

Lemma g_band_ids line j :
  Info.cell_id (g_band line j) = Info.cell_id j /\ Info.tac (g_band line j) = Info.tac j.
Proof. unfold g_band. destruct (search _ _ _ _); split; reflexivity. Qed.
Lemma g_pci_ids line j :
  Info.cell_id (g_pci line j) = Info.cell_id j /\ Info.tac (g_pci line j) = Info.tac j.
Proof. unfold g_pci. destruct (search _ _ _ _); [apply seed_pci_ids|split; reflexivity]. Qed.
Lemma g_channel_ids line j :
  Info.cell_id (g_channel line j) = Info.cell_id j /\ Info.tac (g_channel line j) = Info.tac j.
Proof. unfold g_channel. destruct (search _ _ _ _); [apply seed_channel_ids|split; reflexivity]. Qed.

Lemma generic_ids line i :
  Info.cell_id (generic_update line i)
    = match search ["lte_cell_id:"; "nr_cell_id:"] false is_digit line with
      | Some c => c | None => Info.cell_id i end
  /\ Info.tac (generic_update line i)
    = match search ["lte_tac:"; "nr_tac:"] false is_digit line with
      | Some c => c | None => Info.tac i end.
Proof.
  unfold generic_update, g_rssi, g_snr, g_rsrq, g_rsrp.
  rewrite (proj1 (g_metric_ids _ _ _ _ _ _ iset_rssi_ids)), (proj2 (g_metric_ids _ _ _ _ _ _ iset_rssi_ids)).
  rewrite (proj1 (g_metric_ids _ _ _ _ _ _ iset_snr_ids)), (proj2 (g_metric_ids _ _ _ _ _ _ iset_snr_ids)).
  rewrite (proj1 (g_metric_ids _ _ _ _ _ _ iset_rsrq_ids)), (proj2 (g_metric_ids _ _ _ _ _ _ iset_rsrq_ids)).
  rewrite (proj1 (g_metric_ids _ _ _ _ _ _ iset_rsrp_ids)), (proj2 (g_metric_ids _ _ _ _ _ _ iset_rsrp_ids)).
  rewrite (proj1 (g_band_ids _ _)), (proj2 (g_band_ids _ _)).
  rewrite (proj1 (g_pci_ids _ _)), (proj2 (g_pci_ids _ _)).
  rewrite (proj1 (g_channel_ids _ _)), (proj2 (g_channel_ids _ _)).
  unfold g_tac, g_cell.
  destruct (search ["lte_cell_id:"; "nr_cell_id:"] false is_digit line);
    destruct (search ["lte_tac:"; "nr_tac:"] false is_digit line); split; reflexivity.
Qed.

Lemma lte_header_ids line e i :
  Info.cell_id (lte_header_fields line e i).2 = Info.cell_id i
  /\ Info.tac (lte_header_fields line e i).2 = Info.tac i.
Proof.
  unfold lte_header_fields.
  destruct (search ["lte_band:"] false is_digit line);
    destruct (search ["lte_band_width:"] false nonspace line); cbn;
    first [apply seed_bands_ids | split; reflexivity].
Qed.

Lemma nr_header_ids line e i :
  Info.cell_id (nr_header_fields line e i).2 = Info.cell_id i
  /\ Info.tac (nr_header_fields line e i).2 = Info.tac i.
Proof.
  unfold nr_header_fields.
  destruct (search _ _ _ _); cbn; [apply seed_bands_ids|split; reflexivity].
Qed.

Lemma entry_line_ids e i line e' i' :
  entry_line e i line = Some (e', i') ->
  Info.cell_id i' = Info.cell_id i /\ Info.tac i' = Info.tac i.
Proof.
  unfold entry_line. intros H.
  destruct (startswith "channel:" line && _).
  { destruct (search ["channel:"] false is_digit line) as [c|];
      destruct (search ["pci:"] false is_digit line) as [p|];
      injection H as _ <-.
    - rewrite (proj1 (seed_pci_ids _ _)), (proj2 (seed_pci_ids _ _)). apply seed_channel_ids.
    - apply seed_channel_ids.
    - apply seed_pci_ids.
    - split; reflexivity. }
  destruct (startswith "nr_channel:" line && _); [injection H as _ <-; apply seed_channel_ids|].
  destruct (startswith "nr_pci:" line && _); [injection H as _ <-; apply seed_pci_ids|].
  destruct (startswith "nr_band_width:" line && _); [injection H as _ <-; split; reflexivity|].
  destruct (startswith "lte_rsrp:" line && _).
  { apply some_inv in H.
    destruct (metric_upd "lte_rsrp:" _ _ _ _ _) as [e1 i1] eqn:E1.
    destruct (metric_upd_ids _ _ _ _ _ _ _ _ _ iset_rsrq_ids H) as [-> ->].
    exact (metric_upd_ids _ _ _ _ _ _ _ _ _ iset_rsrp_ids E1). }
  destruct (startswith "lte_rssi:" line && _).
  { apply some_inv in H.
    destruct (metric_upd "lte_rssi:" _ _ _ _ _) as [e1 i1] eqn:E1.
    destruct (metric_upd_ids _ _ _ _ _ _ _ _ _ iset_snr_ids H) as [-> ->].
    exact (metric_upd_ids _ _ _ _ _ _ _ _ _ iset_rssi_ids E1). }
  destruct (startswith "nr_rsrp:" line && _).
  { destruct (metric_upd "nr_rsrp:" _ _ _ _ _) as [e1 i1] eqn:E1.
    injection H as _ <-.
    exact (metric_upd_ids _ _ _ _ _ _ _ _ _ iset_rsrp_ids E1). }
  destruct (startswith "nr_rsrq:" line && _).
  { apply some_inv in H. exact (metric_upd_ids _ _ _ _ _ _ _ _ _ iset_rsrq_ids H). }
  destruct (startswith "nr_rssi:" line && _).
  { apply some_inv in H. exact (metric_upd_ids _ _ _ _ _ _ _ _ _ iset_rssi_ids H). }
  destruct (startswith "nr_snr:" line && _).
  { apply some_inv in H. exact (metric_upd_ids _ _ _ _ _ _ _ _ _ iset_snr_ids H). }
  discriminate.
Qed.

Lemma process_line_generic st line :
  reaches_generic st line = true -> info (process_line st line) = generic_update line (info st).
Proof.
  intros H. unfold reaches_generic, mcc_mnc_line in H. unfold process_line.
  destruct (startswith_ci "rat:" line) eqn:E1; [cbn [negb andb is_some] in H; discriminate|].
  destruct (is_some (search ["mcc:"] false is_digit line)
            && is_some (search ["mnc:"] false is_digit line)) eqn:E2;
    [cbn [negb andb is_some] in H; discriminate|].
  destruct (startswith "lte_ant_rsrp" line) eqn:E3; [cbn [negb andb is_some] in H; discriminate|].
  destruct (startswith "lte_tx_pwr" line) eqn:E4; [cbn [negb andb is_some] in H; discriminate|].
  destruct (startswith "nr_tx_pwr" line) eqn:E5; [cbn [negb andb is_some] in H; discriminate|].
  destruct (startswith "pcell:" line) eqn:E6; [cbn [negb andb is_some] in H; discriminate|].
  destruct (startswith "scell:" line) eqn:E7;
    [cbn [negb andb is_some] in H; discriminate|].
  destruct (startswith "nr_band:" line) eqn:E8;
    [cbn [negb andb is_some] in H; discriminate|].
  destruct (current_entry st) as [e|] eqn:Ec; [|reflexivity].
  destruct (entry_line e (info st) line) as [[e' i']|] eqn:E; [|reflexivity].
  cbn [negb andb is_some] in H. discriminate.
Qed.

Lemma process_line_not_generic st line :
  reaches_generic st line = false ->
  Info.cell_id (info (process_line st line)) = Info.cell_id (info st)
  /\ Info.tac (info (process_line st line)) = Info.tac (info st).
Proof.
  intros H. unfold reaches_generic, mcc_mnc_line in H. unfold process_line.
  destruct (startswith_ci "rat:" line) eqn:E1; [split; reflexivity|].
  destruct (is_some (search ["mcc:"] false is_digit line)
            && is_some (search ["mnc:"] false is_digit line)) eqn:E2.
  { destruct (search ["mcc:"] false is_digit line), (search ["mnc:"] false is_digit line);
      split; reflexivity. }
  destruct (startswith "lte_ant_rsrp" line) eqn:E3; [split; reflexivity|].
  destruct (startswith "lte_tx_pwr" line) eqn:E4; [split; reflexivity|].
  destruct (startswith "nr_tx_pwr" line) eqn:E5; [split; reflexivity|].
  destruct (startswith "pcell:" line) eqn:E6; [cbn [opened info]; apply lte_header_ids|].
  destruct (startswith "scell:" line) eqn:E7; [cbn [opened info]; apply lte_header_ids|].
  destruct (startswith "nr_band:" line) eqn:E8; [cbn [opened info]; apply nr_header_ids|].
  destruct (current_entry st) as [e|] eqn:Ec.
  - destruct (entry_line e (info st) line) as [[e' i']|] eqn:E.
    + exact (entry_line_ids _ _ _ _ _ E).
    + cbn [negb andb is_some] in H. discriminate.
  - cbn [negb andb is_some] in H. discriminate.
Qed.

(** C1 (amended): the top-level fields are last-occurrence-wins on the
    lines that set them, not first-occurrence-wins: a line appended after
    any lines [ls] sets its field whatever the field held.  A [rat:] line
    (case-insensitive) sets the RAT to the text after its colon; any other
    line carrying both [mcc:] and [mnc:] digits sets the MCC/MNC pair; a
    line carrying [lte_cell_id:]/[nr_cell_id:] or [lte_tac:]/[nr_tac:]
    digits sets the cell id or TAC when it reaches the generic matches
    ([reaches_generic]).  A line that does not reach them (rat, MCC/MNC,
    pending-buffer or header line, or a line taken by the open entry)
    leaves the cell id and the TAC as they were. *)
Theorem top_level_last_occurrence_wins (ls : list string) (l line : string) :
  normalize l = Some line ->
  let st := fold_left step ls pstate0 in
  let i := parse_lines (app ls [l]) in
  (startswith_ci "rat:" line = true -> Info.rat i = strip (after_colon line))
  /\ (forall mcc mnc, startswith_ci "rat:" line = false ->
        search ["mcc:"] false is_digit line = Some mcc ->
        search ["mnc:"] false is_digit line = Some mnc ->
        Info.mccmnc i = mcc ++ "/" ++ mnc)
  /\ (forall c, reaches_generic st line = true ->
        search ["lte_cell_id:"; "nr_cell_id:"] false is_digit line = Some c ->
        Info.cell_id i = c)
  /\ (forall c, reaches_generic st line = true ->
        search ["lte_tac:"; "nr_tac:"] false is_digit line = Some c ->
        Info.tac i = c)
  /\ (reaches_generic st line = false ->
        Info.cell_id i = Info.cell_id (info st) /\ Info.tac i = Info.tac (info st)).
Proof.
  intros Hn. cbv zeta. rewrite parse_lines_snoc. cbv zeta.
  rewrite (step_some _ _ _ Hn).
  cbn [Info.rat Info.mccmnc Info.cell_id Info.tac iset_channels iset_bands iset_advanced].
  set (st := fold_left step ls pstate0).
  split; [|split; [|split; [|split]]].
  - intros Hr. unfold process_line. rewrite Hr. reflexivity.
  - intros mcc mnc Hr Hc Hm. unfold process_line. rewrite Hr, Hc, Hm. reflexivity.
  - intros c Hg Hc. rewrite (process_line_generic _ _ Hg).
    rewrite (proj1 (generic_ids _ _)), Hc. reflexivity.
  - intros c Hg Hc. rewrite (process_line_generic _ _ Hg).
    rewrite (proj2 (generic_ids _ _)), Hc. reflexivity.
  - intros Hg. exact (process_line_not_generic _ _ Hg).
Qed.

(** Witness of C1: after [lte_cell_id:1], a line [lte_cell_id:2] reaches
    the generic matches and sets the cell id to 2. *)
Lemma top_level_last_occurrence_wins_witness :
  normalize "lte_cell_id:2" = Some "lte_cell_id:2"
  /\ Info.cell_id (parse_lines (app ["lte_cell_id:1"] ["lte_cell_id:2"])) = "2".
Proof.
  assert (Hn : normalize "lte_cell_id:2" = Some "lte_cell_id:2") by (vm_compute; reflexivity).
  split; [exact Hn|].
  destruct (top_level_last_occurrence_wins ["lte_cell_id:1"] "lte_cell_id:2" "lte_cell_id:2" Hn)
    as (_ & _ & Hc & _).
  apply Hc; vm_compute; reflexivity.
Defined.

(** C1 (counterexample): with two [rat:] lines, or two cell id lines, the
    second value is the one kept. *)
Lemma top_level_first_not_kept :
  Info.rat (_parse_debug_output ("rat:LTE" ++ nl ++ "rat:NR")) = "NR"
  /\ Info.cell_id (_parse_debug_output ("lte_cell_id:1" ++ nl ++ "lte_cell_id:2")) = "2".
Proof. vm_compute. split; reflexivity. Qed.

End DebugTopLevel.

Section DebugPending.

Import Py Debug.
Local Open Scope string_scope.

Lemma startswith_split (p s : string) : startswith p s = true -> exists r, s = p ++ r.
Proof.
  revert s; induction p as [|a p IH]; intros s H.
  - exists s. reflexivity.
  - destruct s as [|b s]; [discriminate|].
    cbn in H. apply andb_prop in H as [Hab Hps].
    unfold ceq in Hab. apply Ascii.eqb_eq in Hab. subst b.
    destruct (IH s Hps) as [r ->]. exists r. reflexivity.
Qed.

Lemma lte_header_fields_keeps (line : string) (e : Entry.t) (i : Info.t) :
  Entry.technology (lte_header_fields line e i).1 = Entry.technology e
  /\ Entry.antennas (lte_header_fields line e i).1 = Entry.antennas e
  /\ Entry.rx_diversity (lte_header_fields line e i).1 = Entry.rx_diversity e
  /\ Entry.tx_power (lte_header_fields line e i).1 = Entry.tx_power e.
Proof.
  unfold lte_header_fields.
  destruct (search ["lte_band:"] false is_digit line);
    destruct (search ["lte_band_width:"] false nonspace line); cbn; auto.
Qed.

Lemma nr_header_fields_keeps (line : string) (e : Entry.t) (i : Info.t) :
  Entry.technology (nr_header_fields line e i).1 = Entry.technology e
  /\ Entry.antennas (nr_header_fields line e i).1 = Entry.antennas e
  /\ Entry.rx_diversity (nr_header_fields line e i).1 = Entry.rx_diversity e
  /\ Entry.tx_power (nr_header_fields line e i).1 = Entry.tx_power e.
Proof.
  unfold nr_header_fields.
  destruct (search ["nr_band:"] false nonspace line); cbn; auto.
Qed.

(** C4 (amended): on a line that carries no MCC/MNC pair (such a line is
    read as the MCC/MNC line), an [lte_ant_rsrp], [lte_tx_pwr] or
    [nr_tx_pwr] line only fills pending buffers: the top-level fields, the
    open entry, the finished entries and the CA counter stay as they were;
    [lte_ant_rsrp] sets the pending LTE antennas to the antennas it lists
    and, when it carries [rx_diversity:] digits, the pending diversity;
    [lte_tx_pwr] and [nr_tx_pwr] set the pending LTE or NR tx power to the
    first number on the line.  A [pcell:] header opens an LTE entry holding
    the pending LTE antennas, diversity and tx power and clears those three
    buffers; an [nr_band:] header opens an NR entry holding the pending NR
    tx power and clears it; an [scell:] header opens an LTE entry with no
    antennas, diversity or tx power and leaves every pending buffer as it
    was.  Each header first appends the finalized previous entry. *)
Theorem pending_buffers_attachment (st : pstate) (line : string) :
  mcc_mnc_line line = false ->
  (startswith "lte_ant_rsrp" line = true ->
     let st' := process_line st line in
     info st' = info st /\ current_entry st' = current_entry st
     /\ advanced_entries st' = advanced_entries st /\ scell_counter st' = scell_counter st
     /\ pending_lte_antennas st' = _parse_antennas line
     /\ pending_lte_diversity st' = match search ["rx_diversity:"] false is_digit line with
                                    | Some d => Some d
                                    | None => pending_lte_diversity st
                                    end
     /\ pending_lte_tx_power st' = pending_lte_tx_power st
     /\ pending_nr_tx_power st' = pending_nr_tx_power st)
  /\ (startswith "lte_tx_pwr" line = true ->
     let st' := process_line st line in
     info st' = info st /\ current_entry st' = current_entry st
     /\ advanced_entries st' = advanced_entries st /\ scell_counter st' = scell_counter st
     /\ pending_lte_antennas st' = pending_lte_antennas st
     /\ pending_lte_diversity st' = pending_lte_diversity st
     /\ pending_lte_tx_power st' = _extract_first_float line
     /\ pending_nr_tx_power st' = pending_nr_tx_power st)
  /\ (startswith "nr_tx_pwr" line = true ->
     let st' := process_line st line in
     info st' = info st /\ current_entry st' = current_entry st
     /\ advanced_entries st' = advanced_entries st /\ scell_counter st' = scell_counter st
     /\ pending_lte_antennas st' = pending_lte_antennas st
     /\ pending_lte_diversity st' = pending_lte_diversity st
     /\ pending_lte_tx_power st' = pending_lte_tx_power st
     /\ pending_nr_tx_power st' = _extract_first_float line)
  /\ (startswith "pcell:" line = true ->
     let st' := process_line st line in
     exists e, current_entry st' = Some e
       /\ Entry.technology e = LTE
       /\ Entry.antennas e = pending_lte_antennas st
       /\ Entry.rx_diversity e = pending_lte_diversity st
       /\ Entry.tx_power e = pending_lte_tx_power st
       /\ pending_lte_antennas st' = [] /\ pending_lte_diversity st' = None
       /\ pending_lte_tx_power st' = None
       /\ pending_nr_tx_power st' = pending_nr_tx_power st
       /\ advanced_entries st' = _finalize_entry (current_entry st) (advanced_entries st))
  /\ (startswith "scell:" line = true ->
     let st' := process_line st line in
     exists e, current_entry st' = Some e
       /\ Entry.technology e = LTE
       /\ Entry.antennas e = [] /\ Entry.rx_diversity e = None /\ Entry.tx_power e = None
       /\ pending_lte_antennas st' = pending_lte_antennas st
       /\ pending_lte_diversity st' = pending_lte_diversity st
       /\ pending_lte_tx_power st' = pending_lte_tx_power st
       /\ pending_nr_tx_power st' = pending_nr_tx_power st
       /\ advanced_entries st' = _finalize_entry (current_entry st) (advanced_entries st))
  /\ (startswith "nr_band:" line = true ->
     let st' := process_line st line in
     exists e, current_entry st' = Some e
       /\ Entry.technology e = NR
       /\ Entry.tx_power e = pending_nr_tx_power st
       /\ pending_nr_tx_power st' = None
       /\ pending_lte_antennas st' = pending_lte_antennas st
       /\ pending_lte_diversity st' = pending_lte_diversity st
       /\ pending_lte_tx_power st' = pending_lte_tx_power st
       /\ advanced_entries st' = _finalize_entry (current_entry st) (advanced_entries st)).
Proof.
  intros Hm. unfold mcc_mnc_line in Hm.
  split; [|split; [|split; [|split; [|split]]]]; intros Hp; apply startswith_split in Hp as [r ->];
    unfold process_line; rewrite Hm; cbv zeta.
  - change (startswith_ci "rat:" ("lte_ant_rsrp" ++ r)) with false.
    change (startswith "lte_ant_rsrp" ("lte_ant_rsrp" ++ r)) with true.
    cbn -[_parse_antennas search]. repeat split; reflexivity.
  - change (startswith_ci "rat:" ("lte_tx_pwr" ++ r)) with false.
    change (startswith "lte_ant_rsrp" ("lte_tx_pwr" ++ r)) with false.
    change (startswith "lte_tx_pwr" ("lte_tx_pwr" ++ r)) with true.
    cbn -[_extract_first_float]. repeat split; reflexivity.
  - change (startswith_ci "rat:" ("nr_tx_pwr" ++ r)) with false.
    change (startswith "lte_ant_rsrp" ("nr_tx_pwr" ++ r)) with false.
    change (startswith "lte_tx_pwr" ("nr_tx_pwr" ++ r)) with false.
    change (startswith "nr_tx_pwr" ("nr_tx_pwr" ++ r)) with true.
    cbn -[_extract_first_float]. repeat split; reflexivity.
  - change (startswith_ci "rat:" ("pcell:" ++ r)) with false.
    change (startswith "lte_ant_rsrp" ("pcell:" ++ r)) with false.
    change (startswith "lte_tx_pwr" ("pcell:" ++ r)) with false.
    change (startswith "nr_tx_pwr" ("pcell:" ++ r)) with false.
    change (startswith "pcell:" ("pcell:" ++ r)) with true.
    cbv iota beta.
    pose proof (lte_header_fields_keeps ("pcell:" ++ r)
      (new_entry LTE Primary None (pending_lte_antennas st) (pending_lte_diversity st)
         (pending_lte_tx_power st)) (info st)) as (H1 & H2 & H3 & H4).
    eexists; split; [reflexivity|]. cbn [opened current_entry pending_lte_antennas
      pending_lte_diversity pending_lte_tx_power pending_nr_tx_power].
    rewrite H1, H2, H3, H4. repeat split; reflexivity.
  - change (startswith_ci "rat:" ("scell:" ++ r)) with false.
    change (startswith "lte_ant_rsrp" ("scell:" ++ r)) with false.
    change (startswith "lte_tx_pwr" ("scell:" ++ r)) with false.
    change (startswith "nr_tx_pwr" ("scell:" ++ r)) with false.
    change (startswith "pcell:" ("scell:" ++ r)) with false.
    change (startswith "scell:" ("scell:" ++ r)) with true.
    cbv iota beta.
    pose proof (lte_header_fields_keeps ("scell:" ++ r)
      (new_entry LTE Secondary (Some (S (scell_counter st))) [] None None) (info st))
      as (H1 & H2 & H3 & H4).
    eexists; split; [reflexivity|]. cbn [opened current_entry pending_lte_antennas
      pending_lte_diversity pending_lte_tx_power pending_nr_tx_power].
    rewrite H1, H2, H3, H4. repeat split; reflexivity.
  - change (startswith_ci "rat:" ("nr_band:" ++ r)) with false.
    change (startswith "lte_ant_rsrp" ("nr_band:" ++ r)) with false.
    change (startswith "lte_tx_pwr" ("nr_band:" ++ r)) with false.
    change (startswith "nr_tx_pwr" ("nr_band:" ++ r)) with false.
    change (startswith "pcell:" ("nr_band:" ++ r)) with false.
    change (startswith "scell:" ("nr_band:" ++ r)) with false.
    change (startswith "nr_band:" ("nr_band:" ++ r)) with true.
    cbv iota beta.
    pose proof (nr_header_fields_keeps ("nr_band:" ++ r)
      (new_entry NR Primary None [] None (pending_nr_tx_power st)) (info st))
      as (H1 & H2 & H3 & H4).
    eexists; split; [reflexivity|]. cbn [opened current_entry pending_lte_antennas
      pending_lte_diversity pending_lte_tx_power pending_nr_tx_power].
    rewrite H1, H4. repeat split; reflexivity.
Qed.

End DebugPending.

Section DebugPendingExamples.

Import Py Debug.
Local Open Scope string_scope.

(** Witness of C4: after [lte_tx_pwr:23], a [pcell:] header opens an entry
    whose tx power is 23. *)
Lemma pending_buffers_attachment_witness :
  mcc_mnc_line "pcell: lte_band:3" = false
  /\ startswith "pcell:" "pcell: lte_band:3" = true
  /\ exists e, current_entry (process_line st_tx23 "pcell: lte_band:3") = Some e
               /\ Entry.tx_power e = Some 23%Q.
Proof.
  assert (Hm : mcc_mnc_line "pcell: lte_band:3" = false) by reflexivity.
  assert (Hp : startswith "pcell:" "pcell: lte_band:3" = true) by reflexivity.
  destruct (pending_buffers_attachment st_tx23 _ Hm) as (_ & _ & _ & H4 & _).
  destruct (H4 Hp) as (e & He & _ & _ & _ & Htx & _).
  split; [exact Hm|]. split; [exact Hp|].
  exists e. split; [exact He|]. rewrite Htx. vm_compute. reflexivity.
Defined.

(** C4 (counterexample): a pending LTE tx power of 23 is attached to a
    following [pcell:] entry but not to a following [scell:] entry, whose
    tx power display stays empty. *)
Lemma scell_ignores_pending_lte :
  map Detail.tx_power (Info.advanced (_parse_debug_output ("lte_tx_pwr:23" ++ nl ++ "scell: lte_band:3")))
    = [DText EmptyString]
  /\ map Detail.tx_power (Info.advanced (_parse_debug_output ("lte_tx_pwr:23" ++ nl ++ "pcell: lte_band:3")))
    = [DNum 23 " dBm"].
Proof. vm_compute. split; reflexivity. Qed.

End DebugPendingExamples.

Section DebugDisplays.

Import Py Debug.
Local Open Scope string_scope.

Create HintDb dispok.

Ltac ok_info := unfold disp_ok; cbn; intros (?&?&?&?); repeat split; first [reflexivity | assumption].

Lemma ok_rat i v : disp_ok i -> disp_ok (iset_rat i v). Proof. ok_info. Qed.
Lemma ok_mccmnc i v : disp_ok i -> disp_ok (iset_mccmnc i v). Proof. ok_info. Qed.
Lemma ok_bands i v : disp_ok i -> disp_ok (iset_bands i v). Proof. ok_info. Qed.
Lemma ok_channel i v : disp_ok i -> disp_ok (iset_channel i v). Proof. ok_info. Qed.
Lemma ok_channels i v : disp_ok i -> disp_ok (iset_channels i v). Proof. ok_info. Qed.
Lemma ok_pci i v : disp_ok i -> disp_ok (iset_pci i v). Proof. ok_info. Qed.
Lemma ok_cell_id i v : disp_ok i -> disp_ok (iset_cell_id i v). Proof. ok_info. Qed.
Lemma ok_tac i v : disp_ok i -> disp_ok (iset_tac i v). Proof. ok_info. Qed.
Lemma ok_advanced i v : disp_ok i -> disp_ok (iset_advanced i v). Proof. ok_info. Qed.
Lemma ok_rsrp i v : disp_ok i -> disp_ok (iset_rsrp i v). Proof. ok_info. Qed.
Lemma ok_rsrq i v : disp_ok i -> disp_ok (iset_rsrq i v). Proof. ok_info. Qed.
Lemma ok_snr i v : disp_ok i -> disp_ok (iset_snr i v). Proof. ok_info. Qed.
Lemma ok_rssi i v : disp_ok i -> disp_ok (iset_rssi i v). Proof. ok_info. Qed.

#[local] Hint Resolve ok_rat ok_mccmnc ok_bands ok_channel ok_channels ok_pci ok_cell_id
  ok_tac ok_advanced ok_rsrp ok_rsrq ok_snr ok_rssi : dispok.

Lemma ok_seed_bands i b : disp_ok i -> disp_ok (seed_bands i b).
Proof. unfold seed_bands; case_match; auto with dispok. Qed.
Lemma ok_seed_channel i b : disp_ok i -> disp_ok (seed_channel i b).
Proof. unfold seed_channel; case_match; auto with dispok. Qed.
Lemma ok_seed_pci i b : disp_ok i -> disp_ok (seed_pci i b).
Proof. unfold seed_pci; case_match; auto with dispok. Qed.
#[local] Hint Resolve ok_seed_bands ok_seed_channel ok_seed_pci : dispok.

Lemma ok_metric_upd pat line setE getD setI ei :
  (forall i v, disp_ok i -> disp_ok (setI i v)) -> disp_ok ei.2 ->
  disp_ok (metric_upd pat line setE getD setI ei).2.
Proof. intros Hs. destruct ei as [e i]; cbn. intros H. repeat case_match; cbn; auto. Qed.

Lemma ok_g_metric alts ws getD setI line i :
  (forall i v, disp_ok i -> disp_ok (setI i v)) -> disp_ok i ->
  disp_ok (g_metric alts ws getD setI line i).
Proof. intros Hs H. unfold g_metric. repeat case_match; auto. Qed.

Lemma ok_generic line i : disp_ok i -> disp_ok (generic_update line i).
Proof.
  intros H. unfold generic_update, g_rssi, g_snr, g_rsrq, g_rsrp.
  repeat (apply ok_g_metric; [auto with dispok|]).
  unfold g_band, g_pci, g_channel, g_tac, g_cell.
  repeat case_match; auto with dispok.
Qed.

Lemma ok_lte_header line e i : disp_ok i -> disp_ok (lte_header_fields line e i).2.
Proof. intros H. unfold lte_header_fields. repeat case_match; simplify_eq; cbn; auto with dispok. Qed.

Lemma ok_nr_header line e i : disp_ok i -> disp_ok (nr_header_fields line e i).2.
Proof. intros H. unfold nr_header_fields. repeat case_match; cbn; auto with dispok. Qed.

Lemma ok_entry_line e i line e' i' :
  disp_ok i -> entry_line e i line = Some (e', i') -> disp_ok i'.
Proof.
  intros H. unfold entry_line.
  repeat case_match; intros Heq; simplify_eq; auto with dispok.
  all: try match goal with Heq : ?x = (_, ?j) |- disp_ok ?j =>
         replace j with x.2 by (rewrite Heq; reflexivity) end;
       repeat (apply ok_metric_upd; [auto with dispok|]); cbn; auto with dispok.
Qed.


Lemma ok_process_line st line : disp_ok (info st) -> disp_ok (info (process_line st line)).
Proof.
  intros H. unfold process_line.
  repeat case_match; cbn; auto using ok_lte_header, ok_nr_header, ok_generic with dispok.
  all: try match goal with Heq : entry_line _ _ _ = Some _ |- _ =>
         exact (ok_entry_line _ _ _ _ _ H Heq) end.
Qed.

Lemma ok_fold ls st : disp_ok (info st) -> disp_ok (info (fold_left step ls st)).
Proof.
  revert st; induction ls as [|l ls IH]; intros st H; cbn; [exact H|].
  apply IH. unfold step. case_match; [apply ok_process_line|]; exact H.
Qed.

Lemma ok_parse_lines ls : disp_ok (parse_lines ls).
Proof.
  unfold parse_lines. cbv zeta.
  apply ok_channels, ok_bands, ok_advanced, ok_fold.
  repeat split; reflexivity.
Qed.

Lemma metrics_disp_ok i j : metrics_of i = metrics_of j -> disp_ok i -> disp_ok j.
Proof.
  destruct i, j. unfold metrics_of, disp_ok. cbn. intros E. injection E. intros. subst. assumption.
Qed.

Ltac guard_none := match goal with |- disp_ok ?x -> _ => destruct x end;
  unfold disp_ok, metrics_of; cbn;
  intros (H1 & H2 & H3 & H4); subst; match goal with
  | |- context [disp_is (vdisp _ ?v) _] => destruct v
  end; reflexivity.

Lemma guard_rsrp_none i :
  disp_ok i -> metrics_of (if disp_is (Info.rsrp i) "-" then iset_rsrp i None else i) = metrics_of i.
Proof. guard_none. Qed.
Lemma guard_rsrq_none i :
  disp_ok i -> metrics_of (if disp_is (Info.rsrq i) "-" then iset_rsrq i None else i) = metrics_of i.
Proof. guard_none. Qed.
Lemma guard_snr_none i :
  disp_ok i -> metrics_of (if disp_is (Info.snr i) "-" then iset_snr i None else i) = metrics_of i.
Proof. guard_none. Qed.
Lemma guard_rssi_none i :
  disp_ok i -> metrics_of (if disp_is (Info.rssi i) "-" then iset_rssi i None else i) = metrics_of i.
Proof. guard_none. Qed.

Lemma metric_upd_malformed pat line setE getD setI e i e' i' :
  (forall j, disp_ok j -> metrics_of (if disp_is (getD j) "-" then setI j None else j) = metrics_of j) ->
  disp_ok i -> tok_malformed [pat] false line = true ->
  metric_upd pat line setE getD setI (e, i) = (e', i') ->
  metrics_of i' = metrics_of i /\ (e' = e \/ e' = setE e None).
Proof.
  intros Hg Hok Hm. unfold tok_malformed in Hm. unfold metric_upd. cbv beta iota.
  destruct (search [pat] false num_cls line) as [tok|]; intros E.
  - destruct (_to_float tok); [discriminate|]. injection E as <- <-.
    split; [apply Hg, Hok|right; reflexivity].
  - injection E as <- <-. split; [reflexivity|left; reflexivity].
Qed.

Lemma g_metric_malformed alts ws getD setI line j :
  (forall j, disp_ok j -> metrics_of (if disp_is (getD j) "-" then setI j None else j) = metrics_of j) ->
  disp_ok j -> tok_malformed alts ws line = true ->
  metrics_of (g_metric alts ws getD setI line j) = metrics_of j.
Proof.
  intros Hg Hok Hm. unfold tok_malformed in Hm. unfold g_metric.
  destruct (search alts ws num_cls line) as [tok|]; [|reflexivity].
  destruct (_to_float tok); [discriminate|]. apply Hg, Hok.
Qed.

Lemma malformed_at line alts ws :
  malformed_numbers line = true -> In (alts, ws) metric_pats -> tok_malformed alts ws line = true.
Proof.
  unfold malformed_numbers. intros H Hin.
  apply (proj1 (forallb_forall _ _) H (alts, ws) Hin).
Qed.

Ltac in_pats := cbn [In metric_pats]; repeat (first [left; reflexivity | right]).

Lemma seeds_metrics line i :
  metrics_of (g_band line (g_pci line (g_channel line (g_tac line (g_cell line i))))) = metrics_of i.
Proof.
  unfold g_band, g_pci, g_channel, g_tac, g_cell, seed_pci, seed_channel.
  repeat case_match; reflexivity.
Qed.

Lemma generic_malformed line i :
  disp_ok i -> malformed_numbers line = true -> metrics_of (generic_update line i) = metrics_of i.
Proof.
  intros Hok Hm. unfold generic_update.
  set (j := g_band line (g_pci line (g_channel line (g_tac line (g_cell line i))))).
  assert (E0 : metrics_of j = metrics_of i) by apply seeds_metrics.
  assert (O0 : disp_ok j) by (apply (metrics_disp_ok i); [symmetry; exact E0|exact Hok]).
  assert (E1 : metrics_of (g_rsrp line j) = metrics_of j).
  { unfold g_rsrp. apply g_metric_malformed; [exact guard_rsrp_none|exact O0|].
    apply malformed_at; [exact Hm|in_pats]. }
  assert (O1 : disp_ok (g_rsrp line j)) by (apply (metrics_disp_ok j); [symmetry; exact E1|exact O0]).
  assert (E2 : metrics_of (g_rsrq line (g_rsrp line j)) = metrics_of (g_rsrp line j)).
  { unfold g_rsrq. apply g_metric_malformed; [exact guard_rsrq_none|exact O1|].
    apply malformed_at; [exact Hm|in_pats]. }
  assert (O2 : disp_ok (g_rsrq line (g_rsrp line j)))
    by (apply (metrics_disp_ok (g_rsrp line j)); [symmetry; exact E2|exact O1]).
  assert (E3 : metrics_of (g_snr line (g_rsrq line (g_rsrp line j)))
               = metrics_of (g_rsrq line (g_rsrp line j))).
  { unfold g_snr. apply g_metric_malformed; [exact guard_snr_none|exact O2|].
    apply malformed_at; [exact Hm|in_pats]. }
  assert (O3 : disp_ok (g_snr line (g_rsrq line (g_rsrp line j))))
    by (apply (metrics_disp_ok (g_rsrq line (g_rsrp line j))); [symmetry; exact E3|exact O2]).
  assert (E4 : metrics_of (g_rssi line (g_snr line (g_rsrq line (g_rsrp line j))))
               = metrics_of (g_snr line (g_rsrq line (g_rsrp line j)))).
  { unfold g_rssi. apply g_metric_malformed; [exact guard_rssi_none|exact O3|].
    apply malformed_at; [exact Hm|in_pats]. }
  rewrite E4, E3, E2, E1, E0. reflexivity.
Qed.

Ltac fb := unfold entry_fallback; cbn;
  repeat split; first [right; reflexivity | left; reflexivity].

Lemma fb_refl e : entry_fallback e e.
Proof. fb. Qed.

Lemma fb_trans e1 e2 e3 : entry_fallback e1 e2 -> entry_fallback e2 e3 -> entry_fallback e1 e3.
Proof.
  unfold entry_fallback.
  intros (A1 & B1 & C1 & D1) (A2 & B2 & C2 & D2).
  split; [|split; [|split]].
  - destruct A1 as [A1|A1]; [left; exact A1|]. rewrite A1. destruct A2; auto.
  - destruct B1 as [B1|B1]; [left; exact B1|]. rewrite B1. destruct B2; auto.
  - destruct C1 as [C1|C1]; [left; exact C1|]. rewrite C1. destruct C2; auto.
  - destruct D1 as [D1|D1]; [left; exact D1|]. rewrite D1. destruct D2; auto.
Qed.

Lemma fb_upd (e e' : Entry.t) (setE : Entry.t -> option Q -> Entry.t) :
  (forall x, entry_fallback (setE x None) x) -> (e' = e \/ e' = setE e None) -> entry_fallback e' e.
Proof. intros Hs [-> | ->]; [apply fb_refl|apply Hs]. Qed.

Lemma fb_rsrp x : entry_fallback (set_rsrp x None) x. Proof. fb. Qed.
Lemma fb_rsrq x : entry_fallback (set_rsrq x None) x. Proof. fb. Qed.
Lemma fb_rssi x : entry_fallback (set_rssi x None) x. Proof. fb. Qed.
Lemma fb_snr x : entry_fallback (set_snr x None) x. Proof. fb. Qed.

Lemma seed_channel_metrics i c : metrics_of (seed_channel i c) = metrics_of i.
Proof. unfold seed_channel. destruct (String.eqb _ _); reflexivity. Qed.
Lemma seed_pci_metrics i c : metrics_of (seed_pci i c) = metrics_of i.
Proof. unfold seed_pci. destruct (String.eqb _ _); reflexivity. Qed.
Lemma seed_bands_metrics i b : metrics_of (seed_bands i b) = metrics_of i.
Proof. unfold seed_bands. destruct (String.eqb _ _); reflexivity. Qed.

Lemma entry_line_malformed e i line e' i' :
  disp_ok i -> malformed_numbers line = true ->
  entry_line e i line = Some (e', i') ->
  metrics_of i' = metrics_of i /\ entry_fallback e' e.
Proof.
  intros Hok Hm. unfold entry_line. intros H.
  destruct (startswith "channel:" line && _).
  { destruct (search ["channel:"] false is_digit line) as [c|];
      destruct (search ["pci:"] false is_digit line) as [p|];
      injection H as <- <-; (split; [|fb]).
    - rewrite seed_pci_metrics. apply seed_channel_metrics.
    - apply seed_channel_metrics.
    - apply seed_pci_metrics.
    - reflexivity. }
  destruct (startswith "nr_channel:" line && _).
  { injection H as <- <-. split; [apply seed_channel_metrics|fb]. }
  destruct (startswith "nr_pci:" line && _).
  { injection H as <- <-. split; [apply seed_pci_metrics|fb]. }
  destruct (startswith "nr_band_width:" line && _).
  { injection H as <- <-. split; [reflexivity|fb]. }
  destruct (startswith "lte_rsrp:" line && _).
  { apply some_inv in H.
    destruct (metric_upd "lte_rsrp:" _ _ _ _ _) as [e1 i1] eqn:E1.
    destruct (metric_upd_malformed _ _ _ _ _ _ _ _ _ guard_rsrp_none Hok
                (malformed_at line ["lte_rsrp:"] false Hm ltac:(in_pats)) E1) as [M1 F1].
    assert (O1 : disp_ok i1) by (apply (metrics_disp_ok i); [symmetry; exact M1|exact Hok]).
    destruct (metric_upd_malformed _ _ _ _ _ _ _ _ _ guard_rsrq_none O1
                (malformed_at line ["rsrq:"] false Hm ltac:(in_pats)) H) as [M2 F2].
    split; [rewrite M2; exact M1|].
    apply (fb_trans _ e1); [apply (fb_upd _ _ _ fb_rsrq F2)|apply (fb_upd _ _ _ fb_rsrp F1)]. }
  destruct (startswith "lte_rssi:" line && _).
  { apply some_inv in H.
    destruct (metric_upd "lte_rssi:" _ _ _ _ _) as [e1 i1] eqn:E1.
    destruct (metric_upd_malformed _ _ _ _ _ _ _ _ _ guard_rssi_none Hok
                (malformed_at line ["lte_rssi:"] false Hm ltac:(in_pats)) E1) as [M1 F1].
    assert (O1 : disp_ok i1) by (apply (metrics_disp_ok i); [symmetry; exact M1|exact Hok]).
    destruct (metric_upd_malformed _ _ _ _ _ _ _ _ _ guard_snr_none O1
                (malformed_at line ["lte_snr:"] false Hm ltac:(in_pats)) H) as [M2 F2].
    split; [rewrite M2; exact M1|].
    apply (fb_trans _ e1); [apply (fb_upd _ _ _ fb_snr F2)|apply (fb_upd _ _ _ fb_rssi F1)]. }
  destruct (startswith "nr_rsrp:" line && _).
  { destruct (metric_upd "nr_rsrp:" _ _ _ _ _) as [e1 i1] eqn:E1.
    destruct (metric_upd_malformed _ _ _ _ _ _ _ _ _ guard_rsrp_none Hok
                (malformed_at line ["nr_rsrp:"] false Hm ltac:(in_pats)) E1) as [M1 F1].
    injection H as <- <-. split; [exact M1|].
    apply (fb_trans _ e1); [|apply (fb_upd _ _ _ fb_rsrp F1)].
    destruct (search ["rx_diversity:"] false is_digit line);
      destruct (_parse_antennas line); fb. }
  destruct (startswith "nr_rsrq:" line && _).
  { apply some_inv in H.
    destruct (metric_upd_malformed _ _ _ _ _ _ _ _ _ guard_rsrq_none Hok
                (malformed_at line ["nr_rsrq:"] false Hm ltac:(in_pats)) H) as [M1 F1].
    split; [exact M1|apply (fb_upd _ _ _ fb_rsrq F1)]. }
  destruct (startswith "nr_rssi:" line && _).
  { apply some_inv in H.
    destruct (metric_upd_malformed _ _ _ _ _ _ _ _ _ guard_rssi_none Hok
                (malformed_at line ["nr_rssi:"] false Hm ltac:(in_pats)) H) as [M1 F1].
    split; [exact M1|apply (fb_upd _ _ _ fb_rssi F1)]. }
  destruct (startswith "nr_snr:" line && _).
  { apply some_inv in H.
    destruct (metric_upd_malformed _ _ _ _ _ _ _ _ _ guard_snr_none Hok
                (malformed_at line ["nr_snr:"] false Hm ltac:(in_pats)) H) as [M1 F1].
    split; [exact M1|apply (fb_upd _ _ _ fb_snr F1)]. }
  discriminate.
Qed.

Lemma lte_header_metrics line e i :
  metrics_of (lte_header_fields line e i).2 = metrics_of i /\ entry_fallback (lte_header_fields line e i).1 e.
Proof.
  unfold lte_header_fields.
  destruct (search ["lte_band:"] false is_digit line);
    destruct (search ["lte_band_width:"] false nonspace line); cbn;
    (split; [first [apply seed_bands_metrics | reflexivity]|fb]).
Qed.

Lemma nr_header_metrics line e i :
  metrics_of (nr_header_fields line e i).2 = metrics_of i /\ entry_fallback (nr_header_fields line e i).1 e.
Proof.
  unfold nr_header_fields.
  destruct (search _ _ _ _); cbn; (split; [first [apply seed_bands_metrics | reflexivity]|fb]).
Qed.

Lemma fb_fresh e' e : entry_fallback e' e -> no_metrics e -> no_metrics e'.
Proof.
  unfold entry_fallback, no_metrics.
  intros (A & B & C & D) (A' & B' & C' & D').
  rewrite A', B', C', D' in *.
  destruct A, B, C, D; auto.
Qed.

Lemma process_line_malformed st line :
  disp_ok (info st) -> malformed_numbers line = true ->
  metrics_of (info (process_line st line)) = metrics_of (info st)
  /\ (forall e', current_entry (process_line st line) = Some e' ->
        no_metrics e' \/ exists e, current_entry st = Some e /\ entry_fallback e' e).
Proof.
  intros Hok Hm.
  assert (Same : forall e', current_entry st = Some e' ->
            no_metrics e' \/ exists e, current_entry st = Some e /\ entry_fallback e' e).
  { intros e' He'. right. exists e'. split; [exact He'|apply fb_refl]. }
  unfold process_line.
  destruct (startswith_ci "rat:" line); [split; [reflexivity|exact Same]|].
  destruct (is_some (search ["mcc:"] false is_digit line)
            && is_some (search ["mnc:"] false is_digit line)).
  { destruct (search ["mcc:"] false is_digit line), (search ["mnc:"] false is_digit line);
      (split; [reflexivity|exact Same]). }
  destruct (startswith "lte_ant_rsrp" line); [split; [reflexivity|exact Same]|].
  destruct (startswith "lte_tx_pwr" line); [split; [reflexivity|exact Same]|].
  destruct (startswith "nr_tx_pwr" line); [split; [reflexivity|exact Same]|].
  destruct (startswith "pcell:" line).
  { cbn [opened info current_entry].
    destruct (lte_header_metrics line (new_entry LTE Primary None (pending_lte_antennas st)
                (pending_lte_diversity st) (pending_lte_tx_power st)) (info st)) as [M F].
    split; [exact M|]. intros e' He'. injection He' as <-. left.
    apply (fb_fresh _ _ F). unfold no_metrics; cbn; auto. }
  destruct (startswith "scell:" line).
  { cbn [opened info current_entry].
    destruct (lte_header_metrics line (new_entry LTE Secondary (Some (S (scell_counter st))) [] None None)
                (info st)) as [M F].
    split; [exact M|]. intros e' He'. injection He' as <-. left.
    apply (fb_fresh _ _ F). unfold no_metrics; cbn; auto. }
  destruct (startswith "nr_band:" line).
  { cbn [opened info current_entry].
    destruct (nr_header_metrics line (new_entry NR Primary None [] None (pending_nr_tx_power st))
                (info st)) as [M F].
    split; [exact M|]. intros e' He'. injection He' as <-. left.
    apply (fb_fresh _ _ F). unfold no_metrics; cbn; auto. }
  destruct (current_entry st) as [e|] eqn:Ec.
  - destruct (entry_line e (info st) line) as [[e' i']|] eqn:E.
    + destruct (entry_line_malformed _ _ _ _ _ Hok Hm E) as [M F].
      split; [exact M|]. intros e'' He''. cbn in He''. injection He'' as <-.
      right. exists e. split; [reflexivity|exact F].
    + split; [apply generic_malformed; assumption|].
      cbn [with_info current_entry]. rewrite Ec. exact Same.
  - split; [apply generic_malformed; assumption|].
    intros e' He'. cbn in He'. rewrite Ec in He'. discriminate.
Qed.

Lemma finalize_in (c : option Entry.t) (adv : list Detail.t) :
  (forall d, In d adv -> exists e, d = finalize_detail e) ->
  forall d, In d (_finalize_entry c adv) -> exists e, d = finalize_detail e.
Proof.
  intros H d Hd. destruct c as [e|]; cbn in Hd; [|exact (H d Hd)].
  apply in_app_or in Hd as [Hd|[<-|[]]]; [exact (H d Hd)|exists e; reflexivity].
Qed.

Lemma cards_process_line st line :
  (forall d, In d (advanced_entries st) -> exists e, d = finalize_detail e) ->
  forall d, In d (advanced_entries (process_line st line)) -> exists e, d = finalize_detail e.
Proof.
  intros H. unfold process_line.
  repeat case_match; cbn [with_info with_pending with_entry opened advanced_entries];
    first [exact H | apply finalize_in, H].
Qed.

Lemma cards_fold ls st :
  (forall d, In d (advanced_entries st) -> exists e, d = finalize_detail e) ->
  forall d, In d (advanced_entries (fold_left step ls st)) -> exists e, d = finalize_detail e.
Proof.
  revert st; induction ls as [|l ls IH]; intros st H; cbn; [exact H|].
  apply IH. unfold step. destruct (normalize l); [apply cards_process_line|]; exact H.
Qed.

Lemma card_metric_na e m :
  In m (Detail.metrics (finalize_detail e)) -> m_value m = None -> m_display m = DText "N/A".
Proof.
  unfold finalize_detail. cbn [Detail.metrics In].
  intros [<-|[<-|[<-|[<-|[]]]]]; unfold add_metric; cbn [m_value m_display];
    destruct (_round_value _); [discriminate|reflexivity|discriminate|reflexivity
    |discriminate|reflexivity|discriminate|reflexivity].
Qed.

(** C8 (amended): the parser is total (it returns a snapshot for every
    text).  Let a line [l], after normalization [line], hold only missing
    or malformed numeric tokens after its metric keys (no [[-\d.]+] token,
    or one that is no float, as in [lte_rsrp:abc] or [lte_rssi:1.2.3]).
    Appended after any lines [ls], it changes none of the four top-level
    metrics, display or value: a metric that no earlier line set stays
    absent and displays ["-"]; each top-level display is ["-"] exactly when
    its value is absent.  In the open cell entry after it, each metric is
    absent or the one the entry had before.  A card metric whose value is
    absent displays ["N/A"], not ["-"]. *)
Theorem parser_numeric_fallback (ls : list string) (l line : string) :
  normalize l = Some line -> malformed_numbers line = true ->
  let st := fold_left step ls pstate0 in
  let i := parse_lines (app ls [l]) in
  disp_ok i
  /\ metrics_of i = metrics_of (info st)
  /\ (forall e', current_entry (step st l) = Some e' ->
        no_metrics e' \/ exists e, current_entry st = Some e /\ entry_fallback e' e)
  /\ (forall d m, In d (Info.advanced i) -> In m (Detail.metrics d) ->
        m_value m = None -> m_display m = DText "N/A").
Proof.
  intros Hn Hm. cbv zeta.
  assert (Hok : disp_ok (info (fold_left step ls pstate0))).
  { apply ok_fold. repeat split; reflexivity. }
  split; [apply ok_parse_lines|].
  rewrite parse_lines_snoc. cbv zeta. rewrite (step_some _ _ _ Hn).
  destruct (process_line_malformed _ _ Hok Hm) as [M F].
  split; [exact M|]. split; [exact F|].
  intros d m Hd Hmm Hv. cbn [Info.advanced iset_channels iset_bands iset_advanced] in Hd.
  rewrite <- (step_some _ _ _ Hn) in Hd.
  assert (Hc : forall d', In d' (advanced_entries (step (fold_left step ls pstate0) l)) ->
                         exists e, d' = finalize_detail e).
  { intros d' Hd'. apply (cards_fold (app ls [l]) pstate0); [cbn; tauto|].
    rewrite fold_left_app. exact Hd'. }
  destruct (finalize_in _ _ Hc d Hd) as [e ->].
  exact (card_metric_na e m Hmm Hv).
Qed.

(** Witness of C8: after a [pcell:] header, the line [lte_rsrp:abc]
    leaves the top-level metrics as they were. *)
Lemma parser_numeric_fallback_witness :
  normalize "lte_rsrp:abc" = Some "lte_rsrp:abc" /\ malformed_numbers "lte_rsrp:abc" = true
  /\ metrics_of (parse_lines (app ["pcell: lte_band:3"] ["lte_rsrp:abc"]))
     = metrics_of (info (fold_left step ["pcell: lte_band:3"] pstate0)).
Proof.
  assert (Hn : normalize "lte_rsrp:abc" = Some "lte_rsrp:abc") by (vm_compute; reflexivity).
  assert (Hm : malformed_numbers "lte_rsrp:abc" = true) by (vm_compute; reflexivity).
  split; [exact Hn|]. split; [exact Hm|].
  destruct (parser_numeric_fallback ["pcell: lte_band:3"] _ _ Hn Hm) as (_ & M & _).
  exact M.
Defined.

(** C8 (counterexample): in an LTE entry, [lte_rsrp:abc] leaves the
    top-level RSRP absent and displayed ["-"], but the card metrics of the
    entry, all absent, display ["N/A"], not ["-"]; and after a valid
    [lte_rsrp:-95], a following [lte_rsrp:abc] does not make the top-level
    RSRP absent. *)
Lemma card_absent_metric_na :
  Info.rsrp (_parse_debug_output ("pcell: lte_band:3" ++ nl ++ "lte_rsrp:abc")) = DText "-"
  /\ map m_value (flat_map Detail.metrics
        (Info.advanced (_parse_debug_output ("pcell: lte_band:3" ++ nl ++ "lte_rsrp:abc"))))
     = [None; None; None; None]
  /\ map m_display (flat_map Detail.metrics
        (Info.advanced (_parse_debug_output ("pcell: lte_band:3" ++ nl ++ "lte_rsrp:abc"))))
     = [DText "N/A"; DText "N/A"; DText "N/A"; DText "N/A"]
  /\ Info.rsrp_value (_parse_debug_output ("lte_rsrp:-95" ++ nl ++ "lte_rsrp:abc")) = Some (-95)%Q.
Proof. vm_compute. repeat split; reflexivity. Qed.

End DebugDisplays.

(* ------------------------------------------------------------------ *)
(** ** Password masking *)

Section MaskProofs.

Import Py Mask.
Local Open Scope string_scope.

Lemma get_last (c0 : ascii) (rest : string) :
  String.get (String.length rest) (String c0 rest) = Some (last_char c0 rest).
Proof.
  revert c0; induction rest as [|d rest IH]; intros c0; [reflexivity|].
  cbn [String.length last_char]. rewrite <- IH. reflexivity.
Qed.

(** The masked password depends only on the password's length, its first
    character and its last character: two passwords that agree on these
    three are logged identically; a password of one to four characters is
    logged as that many stars. *)
Theorem mask_password_hides_middle :
  (forall p q : string,
     String.length p = String.length q ->
     String.get 0 p = String.get 0 q ->
     String.get (String.length p - 1) p = String.get (String.length q - 1) q ->
     _mask_password p = _mask_password q)
  /\ (forall p : string, (String.length p <= 4)%nat -> p <> EmptyString ->
        _mask_password p = stars (String.length p)).
Proof.
  split.
  - intros [|a p] [|b q] Hl H0 Hlast; try discriminate; [reflexivity|].
    cbn in H0. injection H0 as <-. cbn [String.length] in Hl. injection Hl as Hl.
    cbn [String.length] in Hlast.
    replace (S (String.length p) - 1)%nat with (String.length p) in Hlast by lia.
    replace (S (String.length q) - 1)%nat with (String.length q) in Hlast by lia.
    rewrite !get_last in Hlast. injection Hlast as Hlast.
    unfold _mask_password. cbn [String.length]. rewrite Hl, Hlast. reflexivity.
  - intros [|a p] Hl Hne; [congruence|].
    unfold _mask_password. apply Nat.leb_le in Hl. rewrite Hl. reflexivity.
Qed.

End MaskProofs.

(* ------------------------------------------------------------------ *)
(** ** ATI parser *)

Section AtiProofs.

Import Py Ati.
Local Open Scope string_scope.

Lemma lower_take (kw r : string) :
  (forall a, In a (list_ascii_of_string kw) -> lower a = a) ->
  startswith_ci kw r = true -> map_str lower (take (String.length kw) r) = kw.
Proof.
  revert r; induction kw as [|a kw IH]; intros r Hl Hs; [reflexivity|].
  destruct r as [|b r]; [discriminate|].
  cbn in Hs. apply andb_prop in Hs as [Hab Hs].
  unfold ceq in Hab. apply Ascii.eqb_eq in Hab.
  cbn. rewrite <- Hab, (Hl a (or_introl eq_refl)).
  rewrite IH; [reflexivity| |exact Hs]. intros x Hx; apply Hl; right; exact Hx.
Qed.

Lemma map_lower_chars (f : ascii -> bool) (t kw : string) :
  map_str lower t = kw ->
  (forall a, In a (list_ascii_of_string kw) -> f a = false) ->
  (forall c, f c = true -> lower c = c) ->
  forall c, In c (list_ascii_of_string t) -> f c = false.
Proof.
  revert kw; induction t as [|c t IH]; intros kw Hm Hk Hf x Hx; [destruct Hx|].
  cbn in Hm. subst kw. destruct Hx as [<-|Hx].
  - destruct (f c) eqn:E; [|reflexivity].
    pose proof (Hf c E) as Hc. rewrite <- E, <- Hc. apply Hk. left; reflexivity.
  - apply (IH (map_str lower t)); auto. intros a Ha; apply Hk; right; exact Ha.
Qed.

Lemma drop_while_all_false (f : ascii -> bool) (s : string) :
  (forall c, In c (list_ascii_of_string s) -> f c = false) -> drop_while f s = s.
Proof.
  destruct s as [|c s]; intros H; [reflexivity|]. cbn.
  rewrite (H c (or_introl eq_refl)). reflexivity.
Qed.

Lemma rstrip_list_all_false (f : ascii -> bool) (l : list ascii) :
  (forall c, In c l -> f c = false) -> rstrip_list f l = l.
Proof.
  induction l as [|c l IH]; intros H; [reflexivity|]. cbn.
  rewrite IH by (intros x Hx; apply H; right; exact Hx).
  destruct l; [rewrite (H c (or_introl eq_refl))|]; reflexivity.
Qed.

Lemma strip_no_space (s : string) :
  (forall c, In c (list_ascii_of_string s) -> is_space c = false) -> strip s = s.
Proof.
  intros H. unfold strip. rewrite drop_while_all_false by exact H.
  rewrite rstrip_list_all_false by exact H. apply string_of_list_ascii_of_string.
Qed.

Lemma lower_space (c : ascii) : is_space c = true -> lower c = c.
Proof.
  unfold is_space, lower. intros H.
  destruct ((65 <=? code c) && (code c <=? 90))%nat eqn:E; [|reflexivity].
  exfalso. apply andb_prop in E as [E1 E2]. apply Nat.leb_le in E1, E2.
  repeat (apply orb_prop in H as [H|H]);
    try (apply andb_prop in H as [H1 H2]; apply Nat.leb_le in H1, H2; lia);
    apply Nat.eqb_eq in H; lia.
Qed.

Lemma lower_plus (c : ascii) : is_plus c = true -> lower c = c.
Proof. unfold is_plus, ceq. intros H. apply Ascii.eqb_eq in H. subst c. reflexivity. Qed.

Lemma keys_chars_ok : Forall (fun kw => kw_chars_ok kw = true) keys.
Proof. repeat constructor. Qed.

Lemma norm_regex_key (kw r pfx : string) :
  In kw keys -> startswith_ci kw r = true -> (pfx = EmptyString \/ pfx = "+") ->
  map_str lower (strip (drop_while is_plus (pfx ++ take (String.length kw) r))) = kw.
Proof.
  intros Hin Hs Hp.
  pose proof (proj1 (List.Forall_forall _ _) keys_chars_ok kw Hin) as Hok.
  unfold kw_chars_ok in Hok. rewrite forallb_forall in Hok.
  assert (Hl : forall a, In a (list_ascii_of_string kw) -> lower a = a).
  { intros a Ha. specialize (Hok a Ha).
    apply andb_prop in Hok as [Hok _]. apply andb_prop in Hok as [Hok _].
    apply Ascii.eqb_eq in Hok. exact Hok. }
  assert (Hsp : forall a, In a (list_ascii_of_string kw) -> is_space a = false).
  { intros a Ha. specialize (Hok a Ha).
    apply andb_prop in Hok as [Hok _]. apply andb_prop in Hok as [_ Hok].
    apply negb_true_iff in Hok. exact Hok. }
  assert (Hpl : forall a, In a (list_ascii_of_string kw) -> is_plus a = false).
  { intros a Ha. specialize (Hok a Ha).
    apply andb_prop in Hok as [_ Hok]. apply negb_true_iff in Hok. exact Hok. }
  pose proof (lower_take kw r Hl Hs) as Ht.
  set (t := take (String.length kw) r) in *.
  assert (Hdt : drop_while is_plus (pfx ++ t) = t).
  { destruct Hp as [-> | ->]; cbn;
      apply drop_while_all_false, (map_lower_chars _ t kw Ht Hpl lower_plus). }
  rewrite Hdt, strip_no_space; [exact Ht|].
  exact (map_lower_chars _ t kw Ht Hsp lower_space).
Qed.

Lemma match_kw_some (r pfx : string) (ks : list string) (key value : string) :
  match_kw r pfx ks = Some (key, value) ->
  exists kw, In kw ks /\ startswith_ci kw r = true /\ key = pfx ++ take (String.length kw) r.
Proof.
  induction ks as [|kw ks IH]; cbn; [discriminate|].
  destruct (startswith_ci kw r) eqn:E.
  - intros H. injection H as <- _. exists kw. auto.
  - intros H. destruct (IH H) as (kw' & Hin & Hs & Hk). exists kw'. auto.
Qed.

Lemma ati_regex_key (line key value : string) :
  ati_regex line = Some (key, value) -> In (map_str lower (strip (drop_while is_plus key))) keys.
Proof.
  unfold ati_regex. intros H.
  assert (Hm : exists r pfx, (pfx = EmptyString \/ pfx = "+") /\ match_kw r pfx keys = Some (key, value)).
  { destruct line as [|c t]; [exists EmptyString, EmptyString; auto|].
    destruct (is_plus c) eqn:E.
    - unfold is_plus, ceq in E. apply Ascii.eqb_eq in E. subst c.
      exists t, "+". auto.
    - exists (String c t), EmptyString. auto. }
  destruct Hm as (r & pfx & Hp & Hm).
  destruct (match_kw_some _ _ _ _ _ Hm) as (kw & Hin & Hs & ->).
  rewrite norm_regex_key by assumption. exact Hin.
Qed.

Lemma or_dash_nonempty (v : string) : or_dash v <> EmptyString.
Proof. unfold or_dash. destruct (String.eqb (strip v) EmptyString) eqn:E; [discriminate|].
  apply String.eqb_neq in E. exact E. Qed.

Lemma ati_inv_insert (m : gmap string string) (k v : string) :
  ati_inv m -> In k keys -> v <> EmptyString -> ati_inv (<[k := v]> m).
Proof.
  intros [Hd Hv] Hk Hne. split.
  - intros j. rewrite lookup_insert_is_Some'. rewrite Hd. split; [|tauto].
    intros [<-|H]; assumption.
  - intros j w. rewrite lookup_insert_Some. intros [[_ <-]|[_ H]]; [exact Hne|]. exact (Hv j w H).
Qed.

Lemma ati_inv0 : ati_inv parsed0.
Proof.
  unfold parsed0, keys. cbn [map list_to_map foldr fst snd]. split.
  - intros k. rewrite !lookup_insert_is_Some', lookup_empty. cbn.
    assert (Hn : is_Some (@None string) <-> False) by (split; [intros [? ?]; discriminate|tauto]).
    rewrite Hn. reflexivity.
  - intros k v. rewrite !lookup_insert_Some, lookup_empty.
    intros H; repeat (destruct H as [[_ <-]|[_ H]]; [discriminate|]); discriminate.
Qed.

Lemma ati_inv_step (m : gmap string string) (raw : string) : ati_inv m -> ati_inv (ati_step m raw).
Proof.
  intros Hm. unfold ati_step.
  destruct (_ || _); [exact Hm|].
  destruct (ati_regex _) as [[key value]|] eqn:E.
  - apply ati_inv_insert; [exact Hm| |apply or_dash_nonempty]. exact (ati_regex_key _ _ _ E).
  - destruct (negb _); [exact Hm|].
    destruct (m !! _) eqn:F; [|exact Hm].
    apply ati_inv_insert; [exact Hm| |apply or_dash_nonempty].
    apply (proj1 Hm). rewrite F. eexists; reflexivity.
Qed.

Lemma ati_inv_parse (text : string) : ati_inv (_parse_ati_output text).
Proof.
  unfold _parse_ati_output. generalize parsed0 ati_inv0.
  induction (splitlines text) as [|l ls IH]; intros m Hm; cbn; [exact Hm|].
  apply IH, ati_inv_step, Hm.
Qed.

(** The [operator] field of a signals snapshot is always the parsed
    manufacturer, one space and the parsed model, both non-empty. *)
Theorem signals_operator_shape (ati_text : string) :
  exists mfr model,
    _parse_ati_output ati_text !! "manufacturer" = Some mfr
    /\ _parse_ati_output ati_text !! "model" = Some model
    /\ mfr <> EmptyString /\ model <> EmptyString
    /\ App.operator_of (_parse_ati_output ati_text) = mfr ++ " " ++ model.
Proof.
  destruct (ati_inv_parse ati_text) as [Hd Hv].
  destruct (proj2 (Hd "manufacturer") ltac:(cbn; tauto)) as [mfr Hmfr].
  destruct (proj2 (Hd "model") ltac:(cbn; tauto)) as [model Hmod].
  exists mfr, model. repeat split; try assumption; try exact (Hv _ _ Hmfr); try exact (Hv _ _ Hmod).
  unfold App.operator_of. rewrite Hmfr, Hmod. cbn [default].
  unfold Registry.nonempty. destruct (String.eqb model EmptyString) eqn:E.
  - apply String.eqb_eq in E. exfalso. exact (Hv _ _ Hmod E).
  - unfold id. rewrite E. reflexivity.
Qed.

End AtiProofs.

(* ------------------------------------------------------------------ *)
(** ** Session store and the HTTP handlers *)

Section StoreProofs.

Import Registry.
Local Open Scope string_scope.

Lemma get_remove (st : store) (t t' : string) :
  get (remove st t) t' = if String.eqb t' t then None else get st t'.
Proof.
  unfold get. rewrite remove_sessions.
  destruct (String.eqb t' t) eqn:E.
  - apply String.eqb_eq in E. subst. apply lookup_delete_eq.
  - apply String.eqb_neq in E. apply lookup_delete_ne. congruence.
Qed.

(** [add] then [get] gives back the session under its token; [remove]
    of that token deletes it and closes exactly its client; neither
    touches any other token. *)
Theorem store_add_get_remove (st : store) (s : SSHSession) :
  get (add st s) (token s) = Some s
  /\ (forall t, t <> token s -> get (add st s) t = get st t)
  /\ get (remove (add st s) (token s)) (token s) = None
  /\ closed (remove (add st s) (token s)) = client s :: closed st
  /\ (forall t, t <> token s -> get (remove (add st s) (token s)) t = get st t).
Proof.
  unfold get, add, remove. cbn. rewrite lookup_insert_eq. cbn.
  repeat split.
  - intros t Ht. apply lookup_insert_ne. congruence.
  - apply lookup_delete_eq.
  - intros t Ht. rewrite lookup_delete_ne by congruence. apply lookup_insert_ne. congruence.
Qed.

(** [remove] takes out the token (present or not), closes the client of
    the session it held and nothing else, leaves every other token as it
    was, and a second [remove] of the same token changes nothing. *)
Theorem remove_effect (st : store) (t : string) :
  get (remove st t) t = None
  /\ (forall t', t' <> t -> get (remove st t) t' = get st t')
  /\ closed (remove st t) = match get st t with
                            | Some s => client s :: closed st
                            | None => closed st
                            end
  /\ remove (remove st t) t = remove st t.
Proof.
  split; [rewrite get_remove, String.eqb_refl; reflexivity|].
  split; [intros t' Ht; rewrite get_remove; apply String.eqb_neq in Ht; rewrite Ht; reflexivity|].
  unfold get, remove. destruct (sessions st !! t) as [s|] eqn:E; cbn.
  - rewrite lookup_delete_eq. auto.
  - rewrite E. auto.
Qed.







End StoreProofs.

Section AppProofs.

Import Py Registry App.
Local Open Scope string_scope.

(** [/connect] touches the store only in two ways: on success (200,
    the new token and a non-blank preview) it adds the session, which
    survives the following [cleanup] when [cleanup] runs less than 1800
    seconds later; when the [ATI] preview fails (500) it only closes the
    new client; every other answer leaves the store as it was. *)
Theorem connect_store_effect (ssh : ssh_connector) (run : transport) (c : nat) (tok : string)
  (now now2 : Z) (st : store) (body : option json) :
  let '(st', (code, b)) := connect ssh run c tok now now2 st body in
  (st' = st /\ code <> 200%Z)
  \/ (code = 500%Z /\ b = CError "Test at-chat fallito: "
      /\ sessions st' = sessions st /\ closed st' = c :: closed st)
  \/ (code = 200%Z /\ (exists preview, b = CToken tok preview /\ strip preview <> EmptyString)
      /\ ((now2 - 1800 <= now)%Z ->
          exists s, get st' tok = Some s /\ token s = tok /\ client s = c /\ created_at s = now)).
Proof.
  unfold connect.
  destruct body as [[| | | | |data]|]; try (left; split; [reflexivity|discriminate]).
  destruct (List.filter _ _) as [|m ms]; [|left; split; [reflexivity|discriminate]].
  destruct (strip_json (dget data "host")) as [host|];
    destruct (strip_json (dget data "username")) as [username|];
    try (left; split; [reflexivity|discriminate]).
  destruct (strip_json (dget data "interface")) as [interface|];
    destruct (port_of (dget data "port")) as [port|];
    try (left; split; [reflexivity|discriminate]).
  destruct (mask_raises _); [left; split; [reflexivity|discriminate]|].
  destruct (ssh _ _ _ _ _); [|left; split; [reflexivity|discriminate]].
  destruct (run _ _) as [[out err]|e]; [|right; left; cbn; auto].
  right; right. split; [reflexivity|]. split.
  - eexists; split; [reflexivity|].
    match goal with |- strip (if ?c then _ else ?o) <> _ =>
      destruct c eqn:E; [vm_compute; discriminate|apply String.eqb_neq, E] end.
  - intros Hage. eexists. split.
    unfold get, cleanup. rewrite fold_remove_lookup, in_to_remove.
    unfold add. cbn [sessions]. rewrite lookup_insert_eq. cbn [created_at].
    replace (now <? now2 - 1800)%Z with false by (symmetry; apply Z.ltb_ge; lia).
    reflexivity.
    repeat split.
Qed.

(** [/connect] with fields missing: a 400 whose message lists exactly
    the required fields (host, username, password, interface) that are
    absent or falsy, in that order, before any connection attempt. *)
Theorem connect_missing_fields (ssh : ssh_connector) (run : transport) (c : nat) (tok : string)
  (now now2 : Z) (st : store) (data : list (string * json)) :
  let missing := List.filter (fun k => falsy (dget data k)) required in
  missing <> [] ->
  connect ssh run c tok now now2 st (Some (JObj data))
  = (st, (400%Z, CError ("Campi mancanti: " ++ String.concat ", " missing)))
  /\ (forall k, In k missing <-> In k required /\ falsy (dget data k) = true).
Proof.
  cbv zeta. intros Hm. split.
  - unfold connect. destruct (List.filter _ _); [congruence|reflexivity].
  - intros k. apply filter_In.
Qed.

(** Disconnecting twice with the same body gives the same store and the
    same status as disconnecting once. *)
Theorem disconnect_idempotent (st : store) (body : option json) :
  disconnect (disconnect st body).1 body = disconnect st body.
Proof.
  unfold disconnect.
  destruct body as [[| | | | |data]|]; try reflexivity.
  destruct (falsy (dget data "token")); [reflexivity|].
  destruct (dget data "token") as [[| | | | |]|]; try reflexivity.
  cbn. f_equal. apply (proj2 (proj2 (proj2 (remove_effect st s)))).
Qed.

End AppProofs.

(* ------------------------------------------------------------------ *)
(** ** Parser: top-level fields that keep their first value *)

Section DebugStable.

Import Py Debug.
Local Open Scope string_scope.

Create HintDb stable.

Lemma stable_refl (i : Info.t) : stable_info i i.
Proof. unfold stable_info. repeat split; auto. Qed.

Lemma stable_trans (i j k : Info.t) : stable_info i j -> stable_info j k -> stable_info i k.
Proof.
  unfold stable_info.
  intros (C1 & P1 & R1 & Q1 & S1 & T1) (C2 & P2 & R2 & Q2 & S2 & T2).
  split; [|split; [|split; [|split; [|split]]]]; intros H; try split.
  - rewrite C2, C1 by (try rewrite C1 by exact H; exact H). reflexivity.
  - rewrite P2, P1 by (try rewrite P1 by exact H; exact H). reflexivity.
  - destruct (R1 H) as [E1 F1]. rewrite <- E1 in H. destruct (R2 H) as [E2 F2]. congruence.
  - destruct (R1 H) as [E1 F1]. rewrite <- E1 in H. destruct (R2 H) as [E2 F2]. congruence.
  - destruct (Q1 H) as [E1 F1]. rewrite <- E1 in H. destruct (Q2 H) as [E2 F2]. congruence.
  - destruct (Q1 H) as [E1 F1]. rewrite <- E1 in H. destruct (Q2 H) as [E2 F2]. congruence.
  - destruct (S1 H) as [E1 F1]. rewrite <- E1 in H. destruct (S2 H) as [E2 F2]. congruence.
  - destruct (S1 H) as [E1 F1]. rewrite <- E1 in H. destruct (S2 H) as [E2 F2]. congruence.
  - destruct (T1 H) as [E1 F1]. rewrite <- E1 in H. destruct (T2 H) as [E2 F2]. congruence.
  - destruct (T1 H) as [E1 F1]. rewrite <- E1 in H. destruct (T2 H) as [E2 F2]. congruence.
Qed.

Ltac stab := unfold stable_info; cbn; repeat split; intros; try congruence.

Lemma stable_rat i v : stable_info i (iset_rat i v). Proof. stab. Qed.
Lemma stable_mccmnc i v : stable_info i (iset_mccmnc i v). Proof. stab. Qed.
Lemma stable_bands i v : stable_info i (iset_bands i v). Proof. stab. Qed.
Lemma stable_channels i v : stable_info i (iset_channels i v). Proof. stab. Qed.
Lemma stable_cell_id i v : stable_info i (iset_cell_id i v). Proof. stab. Qed.
Lemma stable_tac i v : stable_info i (iset_tac i v). Proof. stab. Qed.
Lemma stable_advanced i v : stable_info i (iset_advanced i v). Proof. stab. Qed.

Lemma stable_seed_bands i b : stable_info i (seed_bands i b).
Proof. unfold seed_bands. destruct (String.eqb _ _); [apply stable_bands|apply stable_refl]. Qed.

Lemma stable_seed_channel i c : stable_info i (seed_channel i c).
Proof.
  unfold seed_channel. destruct (String.eqb (Info.channel i) "-") eqn:E; [|apply stable_refl].
  apply String.eqb_eq in E. stab.
Qed.

Lemma stable_seed_pci i c : stable_info i (seed_pci i c).
Proof.
  unfold seed_pci. destruct (String.eqb (Info.pci i) "-") eqn:E; [|apply stable_refl].
  apply String.eqb_eq in E. stab.
Qed.

Lemma stable_guard_rsrp i v :
  stable_info i (if disp_is (Info.rsrp i) "-" then iset_rsrp i v else i).
Proof. destruct (disp_is (Info.rsrp i) "-") eqn:E; [stab|apply stable_refl]. Qed.
Lemma stable_guard_rsrq i v :
  stable_info i (if disp_is (Info.rsrq i) "-" then iset_rsrq i v else i).
Proof. destruct (disp_is (Info.rsrq i) "-") eqn:E; [stab|apply stable_refl]. Qed.
Lemma stable_guard_snr i v :
  stable_info i (if disp_is (Info.snr i) "-" then iset_snr i v else i).
Proof. destruct (disp_is (Info.snr i) "-") eqn:E; [stab|apply stable_refl]. Qed.
Lemma stable_guard_rssi i v :
  stable_info i (if disp_is (Info.rssi i) "-" then iset_rssi i v else i).
Proof. destruct (disp_is (Info.rssi i) "-") eqn:E; [stab|apply stable_refl]. Qed.

#[local] Hint Resolve stable_refl stable_rat stable_mccmnc stable_bands stable_channels
  stable_cell_id stable_tac stable_advanced stable_seed_bands stable_seed_channel
  stable_seed_pci stable_guard_rsrp stable_guard_rsrq stable_guard_snr stable_guard_rssi : stable.

Lemma stable_metric_upd pat line setE getD setI e i :
  (forall j v, stable_info j (if disp_is (getD j) "-" then setI j v else j)) ->
  stable_info i (metric_upd pat line setE getD setI (e, i)).2.
Proof.
  intros H. unfold metric_upd. destruct (search _ _ _ _); [apply H|apply stable_refl].
Qed.

Lemma some_eq {A} (x y : A) : Some x = Some y -> x = y.
Proof. congruence. Qed.

Lemma stable_metric_eq pat line setE getD setI e i e' i' :
  (forall j v, stable_info j (if disp_is (getD j) "-" then setI j v else j)) ->
  metric_upd pat line setE getD setI (e, i) = (e', i') -> stable_info i i'.
Proof.
  intros H E. pose proof (stable_metric_upd pat line setE getD setI e i H) as Hs.
  rewrite E in Hs. exact Hs.
Qed.

Lemma stable_g_metric alts ws getD setI line i :
  (forall j v, stable_info j (if disp_is (getD j) "-" then setI j v else j)) ->
  stable_info i (g_metric alts ws getD setI line i).
Proof.
  intros H. unfold g_metric. destruct (search _ _ _ _); [apply H|apply stable_refl].
Qed.

Lemma stable_generic line i : stable_info i (generic_update line i).
Proof.
  unfold generic_update.
  eapply stable_trans; [|apply stable_g_metric; auto with stable].
  eapply stable_trans; [|apply stable_g_metric; auto with stable].
  eapply stable_trans; [|apply stable_g_metric; auto with stable].
  eapply stable_trans; [|apply stable_g_metric; auto with stable].
  eapply stable_trans; [|unfold g_band; destruct (search _ _ _ _); auto with stable].
  eapply stable_trans; [|unfold g_pci; destruct (search _ _ _ _); auto with stable].
  eapply stable_trans; [|unfold g_channel; destruct (search _ _ _ _); auto with stable].
  eapply stable_trans; [|unfold g_tac; destruct (search _ _ _ _); auto with stable].
  unfold g_cell; destruct (search _ _ _ _); auto with stable.
Qed.

Lemma stable_lte_header line e i : stable_info i (lte_header_fields line e i).2.
Proof.
  unfold lte_header_fields.
  destruct (search ["lte_band:"] false is_digit line);
    destruct (search ["lte_band_width:"] false nonspace line); cbn; auto with stable.
Qed.

Lemma stable_nr_header line e i : stable_info i (nr_header_fields line e i).2.
Proof. unfold nr_header_fields. destruct (search _ _ _ _); cbn; auto with stable. Qed.

Lemma stable_entry_line e i line e' i' :
  entry_line e i line = Some (e', i') -> stable_info i i'.
Proof.
  unfold entry_line. intros H.
  destruct (startswith "channel:" line && _).
  { destruct (search ["channel:"] false is_digit line) as [c|];
      destruct (search ["pci:"] false is_digit line) as [p|];
      injection H as _ <-;
      first [ apply stable_refl | apply stable_seed_channel | apply stable_seed_pci
            | eapply stable_trans; [apply stable_seed_channel|apply stable_seed_pci] ]. }
  destruct (startswith "nr_channel:" line && _); [injection H as _ <-; auto with stable|].
  destruct (startswith "nr_pci:" line && _); [injection H as _ <-; auto with stable|].
  destruct (startswith "nr_band_width:" line && _); [injection H as _ <-; auto with stable|].
  destruct (startswith "lte_rsrp:" line && _).
  { apply some_eq in H.
    destruct (metric_upd "lte_rsrp:" _ _ _ _ _) as [e1 i1] eqn:E1.
    eapply stable_trans; [(eapply stable_metric_eq; [|exact E1]; auto with stable)|].
    (eapply stable_metric_eq; [|exact H]; auto with stable). }
  destruct (startswith "lte_rssi:" line && _).
  { apply some_eq in H.
    destruct (metric_upd "lte_rssi:" _ _ _ _ _) as [e1 i1] eqn:E1.
    eapply stable_trans; [(eapply stable_metric_eq; [|exact E1]; auto with stable)|].
    (eapply stable_metric_eq; [|exact H]; auto with stable). }
  destruct (startswith "nr_rsrp:" line && _).
  { destruct (metric_upd "nr_rsrp:" _ _ _ _ _) as [e1 i1] eqn:E1.
    injection H as _ <-.
    (eapply stable_metric_eq; [|exact E1]; auto with stable). }
  destruct (startswith "nr_rsrq:" line && _).
  { apply some_eq in H. (eapply stable_metric_eq; [|exact H]; auto with stable). }
  destruct (startswith "nr_rssi:" line && _).
  { apply some_eq in H. (eapply stable_metric_eq; [|exact H]; auto with stable). }
  destruct (startswith "nr_snr:" line && _).
  { apply some_eq in H. (eapply stable_metric_eq; [|exact H]; auto with stable). }
  discriminate.
Qed.

Lemma stable_process_line st line : stable_info (info st) (info (process_line st line)).
Proof.
  unfold process_line.
  destruct (startswith_ci "rat:" line); [cbn; auto with stable|].
  destruct (is_some (search ["mcc:"] false is_digit line)
            && is_some (search ["mnc:"] false is_digit line)).
  { destruct (search ["mcc:"] false is_digit line), (search ["mnc:"] false is_digit line);
      cbn; auto with stable. }
  destruct (startswith "lte_ant_rsrp" line); [apply stable_refl|].
  destruct (startswith "lte_tx_pwr" line); [apply stable_refl|].
  destruct (startswith "nr_tx_pwr" line); [apply stable_refl|].
  destruct (startswith "pcell:" line); [apply stable_lte_header|].
  destruct (startswith "scell:" line); [apply stable_lte_header|].
  destruct (startswith "nr_band:" line); [apply stable_nr_header|].
  destruct (current_entry st) as [e|]; [|apply stable_generic].
  destruct (entry_line e (info st) line) as [[e' i']|] eqn:E; [|apply stable_generic].
  exact (stable_entry_line _ _ _ _ _ E).
Qed.

Lemma stable_fold ls st : stable_info (info st) (info (fold_left step ls st)).
Proof.
  revert st. induction ls as [|l ls IH]; intros st; [apply stable_refl|].
  cbn. eapply stable_trans; [|apply IH].
  unfold step. destruct (normalize l); [apply stable_process_line|apply stable_refl].
Qed.

(** In the parsed result the top-level [channel] and [pci] and the four
    top-level metrics ([rsrp], [rsrq], [snr], [rssi], display and value)
    keep the first value that set them: whatever lines follow a prefix
    [ls1] after which one of them is set, it ends as it was after [ls1]. *)
Theorem debug_first_value_kept (ls1 ls2 : list string) :
  stable_info (info (fold_left step ls1 pstate0)) (parse_lines (app ls1 ls2)).
Proof.
  unfold parse_lines. rewrite fold_left_app.
  eapply stable_trans; [apply stable_fold|].
  eapply stable_trans; [apply stable_advanced|].
  eapply stable_trans; [apply stable_bands|]. apply stable_channels.
Qed.

End DebugStable.

(* ------------------------------------------------------------------ *)
(** ** Parser: cards, bands summary, antennas *)

Section DebugCards.

Import Py Debug.
Local Open Scope string_scope.

Lemma finalize_len (c : option Entry.t) (adv : list Detail.t) :
  length (_finalize_entry c adv) = (length adv + if is_some c then 1 else 0)%nat.
Proof. destruct c; cbn; [rewrite length_app; reflexivity|lia]. Qed.

Lemma header_dispatch (line : string) :
  header_line line =
  negb (startswith_ci "rat:" line) && negb (mcc_mnc_line line)
  && negb (startswith "lte_ant_rsrp" line) && negb (startswith "lte_tx_pwr" line)
  && negb (startswith "nr_tx_pwr" line)
  && (startswith "pcell:" line || startswith "scell:" line || startswith "nr_band:" line).
Proof.
  unfold header_line.
  destruct (startswith "pcell:" line) eqn:E1;
    [apply startswith_split in E1 as [r ->]; cbn -[mcc_mnc_line];
     destruct (mcc_mnc_line _); reflexivity|].
  destruct (startswith "scell:" line) eqn:E2;
    [apply startswith_split in E2 as [r ->]; cbn -[mcc_mnc_line];
     destruct (mcc_mnc_line _); reflexivity|].
  destruct (startswith "nr_band:" line) eqn:E3;
    [apply startswith_split in E3 as [r ->]; cbn -[mcc_mnc_line];
     destruct (mcc_mnc_line _); reflexivity|].
  cbn [orb]. rewrite !andb_false_r. reflexivity.
Qed.

Lemma process_line_cards (st : pstate) (line : string) :
  advanced_entries (process_line st line)
  = (if header_line line then _finalize_entry (current_entry st) (advanced_entries st)
     else advanced_entries st)
  /\ is_some (current_entry (process_line st line)) = header_line line || is_some (current_entry st).
Proof.
  rewrite header_dispatch. unfold process_line, mcc_mnc_line.
  destruct (startswith_ci "rat:" line); [split; reflexivity|]. cbn [negb andb].
  destruct (is_some (search ["mcc:"] false is_digit line)
            && is_some (search ["mnc:"] false is_digit line)); cbn [negb andb].
  { destruct (search ["mcc:"] false is_digit line), (search ["mnc:"] false is_digit line);
      split; reflexivity. }
  destruct (startswith "lte_ant_rsrp" line); [split; reflexivity|]. cbn [negb andb].
  destruct (startswith "lte_tx_pwr" line); [split; reflexivity|]. cbn [negb andb].
  destruct (startswith "nr_tx_pwr" line); [split; reflexivity|]. cbn [negb andb].
  destruct (startswith "pcell:" line); [split; reflexivity|].
  destruct (startswith "scell:" line); [split; reflexivity|].
  destruct (startswith "nr_band:" line); [split; reflexivity|]. cbn [orb].
  destruct (current_entry st) as [e|] eqn:C.
  - destruct (entry_line e (info st) line) as [[e' i']|]; cbn; rewrite ?C; split; reflexivity.
  - cbn. rewrite C. split; reflexivity.
Qed.

Lemma card_count_step (st : pstate) (l : string) :
  card_count (step st l)
  = (card_count st + match normalize l with
                     | Some x => if header_line x then 1 else 0
                     | None => 0
                     end)%nat.
Proof.
  unfold step. destruct (normalize l) as [x|]; [|lia].
  destruct (process_line_cards st x) as [A B].
  unfold card_count. rewrite !finalize_len, A, B.
  destruct (header_line x); cbn [orb]; [rewrite finalize_len|]; lia.
Qed.

Lemma card_count_fold (ls : list string) (st : pstate) :
  card_count (fold_left step ls st)
  = (card_count st + length (List.filter header_line (normalized_lines ls)))%nat.
Proof.
  revert st. induction ls as [|l ls IH]; intros st; cbn; [lia|].
  rewrite IH, card_count_step.
  destruct (normalize l) as [x|]; [|lia]. cbn. destruct (header_line x); cbn; lia.
Qed.

(** The parser emits exactly one card ([advanced] entry) per header
    line: on the non-empty lines after the [output:] handling, the number
    of cards equals the number of [pcell:], [scell:] and [nr_band:] lines
    that do not also carry an MCC/MNC pair; no other line adds or drops
    a card, and the entry still open at the end is included. *)
Theorem debug_card_count (text : string) :
  length (Info.advanced (_parse_debug_output text))
  = length (List.filter header_line (normalized_lines (splitlines text))).
Proof.
  unfold _parse_debug_output, parse_lines, iset_channels, iset_bands, iset_advanced.
  cbn [Info.advanced].
  change (length (_finalize_entry _ _)) with (card_count (fold_left step (splitlines text) pstate0)).
  rewrite card_count_fold. reflexivity.
Qed.

Lemma band_go_sound (ds : list Detail.t) (seen : list string) (b : string) :
  In b (band_display_go ds seen) ->
  ~ In b seen /\ exists d, In d ds /\ truthy (Detail.band d) = true /\ b = band_norm d.
Proof.
  revert seen. induction ds as [|d ds IH]; intros seen H; cbn in H; [destruct H|].
  destruct (truthy (Detail.band d)) eqn:T.
  - destruct (existsb _ seen) eqn:X.
    + destruct (IH seen H) as [Hs (d' & Hd' & Ht & ->)]. split; [exact Hs|]. exists d'. auto with datatypes.
    + destruct H as [<-|H].
      * split.
        -- intros Hin. assert (existsb (String.eqb (band_norm d)) seen = true) as Y.
           { apply existsb_exists. exists (band_norm d). split; [exact Hin|apply String.eqb_refl]. }
           unfold band_norm in Y. congruence.
        -- exists d. split; [left; reflexivity|]. auto.
      * destruct (IH _ H) as [Hs (d' & Hd' & Ht & ->)]. split.
        -- intros Hin. apply Hs. right. exact Hin.
        -- exists d'. auto with datatypes.
  - destruct (IH seen H) as [Hs (d' & Hd' & Ht & ->)]. split; [exact Hs|]. exists d'. auto with datatypes.
Qed.

Lemma band_go_nodup (ds : list Detail.t) (seen : list string) :
  List.NoDup (band_display_go ds seen).
Proof.
  revert seen. induction ds as [|d ds IH]; intros seen; cbn; [constructor|].
  destruct (truthy (Detail.band d)); [|apply IH].
  destruct (existsb _ seen); [apply IH|].
  constructor; [|apply IH].
  intros H. apply band_go_sound in H as [H _]. apply H. left. reflexivity.
Qed.

Lemma band_go_complete (ds : list Detail.t) (seen : list string) (d : Detail.t) :
  In d ds -> truthy (Detail.band d) = true ->
  In (band_norm d) seen \/ In (band_norm d) (band_display_go ds seen).
Proof.
  revert seen. induction ds as [|d0 ds IH]; intros seen Hin Ht; [destruct Hin|].
  cbn. destruct Hin as [<-|Hin].
  - rewrite Ht. destruct (existsb (String.eqb (band_norm d0)) seen) eqn:X.
    + left. apply existsb_exists in X as [x [Hx E]]. apply String.eqb_eq in E. subst x. exact Hx.
    + unfold band_norm in X |- *. rewrite X. right. left. reflexivity.
  - destruct (truthy (Detail.band d0)); [|apply IH; assumption].
    destruct (existsb _ seen); [apply IH; assumption|].
    destruct (IH (band_norm d0 :: seen) Hin Ht) as [[E|H]|H].
    + right. left. unfold band_norm in E |- *. exact E.
    + left. exact H.
    + right. right. exact H.
Qed.

(** The bands summary [_build_band_display] joins a list with no
    repeated band, holding exactly the normalized bands (stripped, an
    [n] prefix added for NR) of the cards that have a band. *)
Theorem band_display_distinct (entries : list Detail.t) :
  List.NoDup (band_display_go entries [])
  /\ (forall b, In b (band_display_go entries []) <->
        exists d, In d entries /\ truthy (Detail.band d) = true /\ b = band_norm d)
  /\ _build_band_display entries = join_plus (band_display_go entries []).
Proof.
  split; [apply band_go_nodup|]. split; [|reflexivity].
  intros b. split.
  - intros H. apply band_go_sound in H as [_ H]. exact H.
  - intros (d & Hd & Ht & ->). destruct (band_go_complete entries [] d Hd Ht) as [[]|H]. exact H.
Qed.

(** [_parse_antennas]: without a parenthesised group there are no
    antennas; otherwise one antenna per comma-separated item, labelled
    [Antenna 1], [Antenna 2], ... in order, whose value is the first
    number of the item and whose display is that value with [ dBm], or
    [N/A] when the item has no number. *)
Theorem parse_antennas_shape (line : string) :
  match rx_search paren_at line with
  | None => _parse_antennas line = []
  | Some grp =>
      map a_label (_parse_antennas line)
        = map (fun k => "Antenna " ++ nat_str k) (seq 1 (length (split_comma grp)))
      /\ map a_value (_parse_antennas line)
        = map (fun item => _extract_first_float (strip item)) (split_comma grp)
  end
  /\ Forall (fun a => a_display a = match a_value a with
                                    | Some v => DNum v " dBm"
                                    | None => DText "N/A"
                                    end) (_parse_antennas line).
Proof.
  unfold _parse_antennas.
  destruct (rx_search paren_at line) as [grp|]; [|split; [reflexivity|constructor]].
  change 1%nat with (S 0).
  generalize (split_comma grp) as items. generalize 0%nat as idx.
  intros idx items. revert idx.
  induction items as [|item rest IH]; intros idx; [split; [split; reflexivity|constructor]|].
  destruct (IH (S idx)) as [[HL HV] HF]. cbn [map length seq]. split; [split|].
  - f_equal. exact HL.
  - f_equal. exact HV.
  - constructor; [destruct (_extract_first_float (strip item)); reflexivity|exact HF].
Qed.

End DebugCards.

(* ------------------------------------------------------------------ *)
(** ** Assessment order *)

Section AssessMonotone.

Variable F : Type.
Variable py_float : string -> option F.
Variable f_ge : F -> Z -> bool.
Variable f_truthy : F -> bool.

(** With the RSRQ and SINR strings fixed, a stronger RSRP (one that
    clears every threshold the weaker one clears) never gives a worse
    assessment. *)
Theorem assess_monotone_rsrp (rsrp rsrp' rsrq snr : string) (r r' : F) :
  Assess.conv F py_float "dBm" rsrp = Some (Some r) ->
  Assess.conv F py_float "dBm" rsrp' = Some (Some r') ->
  (forall k, f_ge r k = true -> f_ge r' k = true) ->
  (assess_rank (Assess._assess_signal F py_float f_ge f_truthy rsrp rsrq snr)
   <= assess_rank (Assess._assess_signal F py_float f_ge f_truthy rsrp' rsrq snr))%nat.
Proof.
  intros H1 H2 Hm. unfold Assess._assess_signal. rewrite H1, H2.
  destruct (Assess.conv F py_float "dB" rsrq) as [q|]; [|cbn; lia].
  destruct (Assess.conv F py_float "dB" snr) as [s|]; [|cbn; lia].
  set (S := Assess.num_ge F f_ge (Assess.py_or F f_truthy s 0) 10).
  set (R := Assess.num_ge F f_ge (Assess.py_or F f_truthy q (-40)) (-14)).
  destruct (f_ge r (-90)) eqn:A1; [rewrite (Hm _ A1)|];
  destruct (f_ge r (-105)) eqn:A2; try rewrite (Hm _ A2);
  destruct (f_ge r (-115)) eqn:A3; try rewrite (Hm _ A3);
  destruct (f_ge r' (-90)), (f_ge r' (-105)), (f_ge r' (-115)), S, R;
  cbn; lia.
Qed.

End AssessMonotone.

(* ------------------------------------------------------------------ *)
(** ** Witnesses of the extra properties *)

Section ExtraWitnesses.

Local Open Scope string_scope.

(** Witness of [connect_missing_fields]: a body with only the host is
    answered 400, naming the username, the password and the interface. *)
Lemma connect_missing_fields_witness :
  List.filter (fun k => App.falsy (App.dget host_only k)) App.required <> []
  /\ App.connect ssh_ok run_quectel 0 "T" 0 0 store0 (Some (App.JObj host_only))
     = (store0, (400%Z, App.CError "Campi mancanti: username, password, interface")).
Proof.
  assert (Hm : List.filter (fun k => App.falsy (App.dget host_only k)) App.required <> [])
    by (vm_compute; discriminate).
  split; [exact Hm|].
  destruct (connect_missing_fields ssh_ok run_quectel 0 "T" 0 0 store0 host_only Hm) as [H _].
  rewrite H. vm_compute. reflexivity.
Defined.

(** Witness of [assess_monotone_rsrp] on exact numbers: [-80dBm] does
    at least as well as [-100dBm] with RSRQ [-9dB] and SINR [12dB]. *)
Lemma assess_monotone_rsrp_witness :
  (assess_rank (Assess._assess_signal Q Num.py_float_dec Assess.qge Assess.qtruthy "-100dBm" "-9dB" "12dB")
   <= assess_rank (Assess._assess_signal Q Num.py_float_dec Assess.qge Assess.qtruthy "-80dBm" "-9dB" "12dB"))%nat.
Proof.
  apply (assess_monotone_rsrp Q Num.py_float_dec Assess.qge Assess.qtruthy
           "-100dBm" "-80dBm" "-9dB" "12dB" (-100)%Q (-80)%Q).
  - vm_compute. reflexivity.
  - vm_compute. reflexivity.
  - intros k Hk. unfold Assess.qge in *. apply Qle_bool_iff in Hk. apply Qle_bool_iff.
    eapply Qle_trans; [exact Hk|]. unfold Qle; cbn; lia.
Defined.

End ExtraWitnesses.
